(** * Thread-boundary components of the WebRTC pipeline layer

    A shallow embedding of
    - [audio/audio_state.cc]: the thread-confined audio-state coordinator
      ([webrtc::internal::AudioState]), and
    - [video/frame_cadence_adapter.cc]: the frame-cadence adapter
      ([webrtc::FrameCadenceAdapterImpl]),
    together with the properties their specification states about them.

    Calls on external collaborators (the audio transport, the voice engine,
    the metrics macros, the frame callback) are recorded, in program order,
    in a trace that is part of the modelled state. *)

From stdpp Require Import gmap list strings.
From Stdlib Require Import ZArith Lia.

(** ** Machine integers

    [int] is a 32-bit two's complement integer.  The atomic read-modify-write
    operations of the sources ([fetch_add], [fetch_sub],
    [AtomicOps::Increment], [AtomicOps::Decrement]) wrap around. *)

Definition INT_MIN : Z := - 2 ^ 31.
Definition INT_MAX : Z := 2 ^ 31 - 1.

Definition wrap_int (z : Z) : Z := (z + 2 ^ 31) `mod` 2 ^ 32 - 2 ^ 31.

Definition is_int (z : Z) : Prop := (INT_MIN ≤ z ≤ INT_MAX)%Z.

(** ** Assertions

    A method either runs to completion or stops at a failed [RTC_DCHECK]. *)

Inductive Result (A : Type) : Type :=
| Done (a : A)
| CheckFailed (what : string).
Arguments Done {A} a.
Arguments CheckFailed {A} what.

(** * The audio-state coordinator *)

Module AudioState.

(** A [webrtc::AudioSendStream*] is modelled by the address it holds, an
    [N]. *)

Record StreamProperties : Type := {
  sample_rate_hz : Z;   (* int *)
  num_channels : N      (* size_t *)
}.

Inductive RefCountReleaseStatus : Type :=
| kDroppedLastRef
| kOtherRefsRemained.

(** Calls that leave the coordinator, in the order they are made. *)
Inductive Call : Type :=
| Transport_UpdateSendingStreams (streams : list N) (max_sample_rate_hz : Z)
                                 (max_num_channels : N)
| VoeBase_SetPlayout (enabled : bool)
| VoeBase_SetRecording (enabled : bool)
| Transport_SetStereoChannelSwapping (enable : bool)
| NullAudioPollerCreated
| NullAudioPollerDestroyed.

(** The members the modelled methods touch, the trace of outgoing calls,
    and whether [delete this] has run.  [sending_streams_] is a map from
    stream to properties, used through [operator[]], [erase], [empty] and
    a range-for loop; its declaration is in [audio_state.h], which is not
    among the sources, so the order in which the loop meets the entries is
    left to [map_to_list].  [null_audio_poller_] is a [unique_ptr]:
    [false] is [nullptr], [true] an owned poller. *)
Record World : Type := {
  sending_streams_ : gmap N StreamProperties;
  null_audio_poller_ : bool;
  ref_count_ : Z;
  calls : list Call;
  deleted : bool
}.

(** A freshly constructed coordinator: no streams, no poller, no reference. *)
Definition AudioState_new : World :=
  {| sending_streams_ := ∅; null_audio_poller_ := false; ref_count_ := 0;
     calls := []; deleted := false |}.

Definition set_sending_streams (m : gmap N StreamProperties) (w : World) :=
  {| sending_streams_ := m; null_audio_poller_ := null_audio_poller_ w;
     ref_count_ := ref_count_ w; calls := calls w; deleted := deleted w |}.
Definition set_null_audio_poller (p : bool) (w : World) :=
  {| sending_streams_ := sending_streams_ w; null_audio_poller_ := p;
     ref_count_ := ref_count_ w; calls := calls w; deleted := deleted w |}.
Definition set_ref_count (n : Z) (w : World) :=
  {| sending_streams_ := sending_streams_ w;
     null_audio_poller_ := null_audio_poller_ w;
     ref_count_ := n; calls := calls w; deleted := deleted w |}.
Definition set_deleted (w : World) :=
  {| sending_streams_ := sending_streams_ w;
     null_audio_poller_ := null_audio_poller_ w;
     ref_count_ := ref_count_ w; calls := calls w; deleted := true |}.
Definition record_call (c : Call) (w : World) :=
  {| sending_streams_ := sending_streams_ w;
     null_audio_poller_ := null_audio_poller_ w;
     ref_count_ := ref_count_ w; calls := calls w ++ [c];
     deleted := deleted w |}.

(** Methods are state transformers that may stop at an assertion. *)
Definition M (A : Type) : Type := World → Result (A * World).

#[export] Instance M_ret : MRet M := λ A a w, Done (a, w).
#[export] Instance M_bind : MBind M := λ A B f c w,
  match c w with
  | Done (a, w') => f a w'
  | CheckFailed what => CheckFailed what
  end.

Definition get : M World := λ w, Done (w, w).
Definition modify (f : World → World) : M unit := λ w, Done (tt, f w).
Definition call (c : Call) : M unit := modify (record_call c).
Definition when (b : bool) (c : M unit) : M unit := if b then c else mret tt.

Section Build.

(** [RTC_DCHECK] is compiled in or out by [RTC_DCHECK_IS_ON], which the
    build fixes ([rtc_base/checks.h] is not among the sources): the model
    takes it as a parameter.  The thread checker's assertions are not
    modelled: every method is taken to be called on the coordinator's
    thread. *)
Variable RTC_DCHECK_IS_ON : bool.

Definition RTC_DCHECK (cond : bool) (what : string) : M unit := λ w,
  if RTC_DCHECK_IS_ON && negb cond then CheckFailed what else Done (tt, w).

(** One iteration of the loop of [UpdateAudioTransportWithSendingStreams]. *)
Definition aggregate_step (acc : list N * Z * N) (kv : N * StreamProperties)
  : list N * Z * N :=
  let '(sending_streams, max_sample_rate_hz, max_num_channels) := acc in
  (sending_streams ++ [kv.1],
   Z.max max_sample_rate_hz (sample_rate_hz kv.2),
   N.max max_num_channels (num_channels kv.2)).

(** The whole loop, over the entries of the map, from the initial values
    of the three locals. *)
Definition aggregate (m : gmap N StreamProperties) : list N * Z * N :=
  foldl aggregate_step ([], 8000%Z, 1%N) (map_to_list m).

(** The call the transport receives when the map is [m]. *)
Definition pushed (m : gmap N StreamProperties) : Call :=
  let '(sending_streams, max_sample_rate_hz, max_num_channels) :=
    aggregate m in
  Transport_UpdateSendingStreams sending_streams max_sample_rate_hz
                                 max_num_channels.

Definition UpdateAudioTransportWithSendingStreams : M unit :=
  w ← get;
  let '(sending_streams, max_sample_rate_hz, max_num_channels) :=
    aggregate (sending_streams_ w) in
  call (Transport_UpdateSendingStreams sending_streams max_sample_rate_hz
                                       max_num_channels).

(** [sending_streams_[stream]] creates the entry when it is absent; both
    fields of the entry are then assigned. *)
Definition AddSendingStream (stream : N) (sample_rate_hz : Z)
    (num_channels : N) : M unit :=
  modify (λ w, set_sending_streams
    (<[stream := {| sample_rate_hz := sample_rate_hz;
                    num_channels := num_channels |}]> (sending_streams_ w)) w);;
  UpdateAudioTransportWithSendingStreams.

Definition RemoveSendingStream (stream : N) : M unit :=
  w ← get;
  let count := if sending_streams_ w !! stream is Some _ then 1%Z else 0%Z in
  modify (λ w, set_sending_streams (delete stream (sending_streams_ w)) w);;
  RTC_DCHECK (1 =? count)%Z "1 == count";;
  UpdateAudioTransportWithSendingStreams.

Definition SetPlayout (enabled : bool) : M unit :=
  w ← get;
  let currently_enabled := negb (null_audio_poller_ w) in
  if Bool.eqb enabled currently_enabled then mret tt
  else
    when enabled (
      (* null_audio_poller_.reset() *)
      w ← get;
      when (null_audio_poller_ w) (call NullAudioPollerDestroyed);;
      modify (set_null_audio_poller false));;
    call (VoeBase_SetPlayout enabled);;
    when (negb enabled) (
      (* null_audio_poller_ = rtc::MakeUnique<NullAudioPoller>(...) *)
      call NullAudioPollerCreated;;
      w ← get;
      when (null_audio_poller_ w) (call NullAudioPollerDestroyed);;
      modify (set_null_audio_poller true)).

Definition SetRecording (enabled : bool) : M unit :=
  call (VoeBase_SetRecording enabled).

Definition SetStereoChannelSwapping (enable : bool) : M unit :=
  call (Transport_SetStereoChannelSwapping enable).

(** [~AudioState], followed by the destruction of the owned poller. *)
Definition destroy : M unit :=
  w ← get;
  RTC_DCHECK (bool_decide (sending_streams_ w = ∅)) "sending_streams_.empty()";;
  when (null_audio_poller_ w) (call NullAudioPollerDestroyed);;
  modify set_deleted.

Definition AddRef : M unit :=
  modify (λ w, set_ref_count (wrap_int (ref_count_ w + 1)) w).

Definition Release : M RefCountReleaseStatus :=
  modify (λ w, set_ref_count (wrap_int (ref_count_ w - 1)) w);;
  w ← get;
  if (ref_count_ w =? 0)%Z then
    destroy;;
    mret kDroppedLastRef
  else mret kOtherRefsRemained.

End Build.

(** ** Further methods, and runs of several calls *)

Section Stats.

Variable RTC_DCHECK_IS_ON : bool.

(** [double], of which the methods only copy values. *)
Variable double : Type.

(** What [audio_transport_.audio_level()] answers when it is read:
    [LevelFullRange()], [Level()], [TotalEnergy()] and [TotalDuration()]. *)
Record AudioLevel : Type := {
  LevelFullRange : Z;
  Level : Z;
  TotalEnergy : double;
  TotalDuration : double
}.

Record Stats : Type := {
  audio_level : Z;
  quantized_audio_level : Z;
  total_energy : double;
  total_duration : double
}.

Definition GetAudioInputStats (level : AudioLevel) : M Stats :=
  let audio_level := LevelFullRange level in
  RTC_DCHECK RTC_DCHECK_IS_ON (0 <=? audio_level)%Z
    "0 <= result.audio_level";;
  RTC_DCHECK RTC_DCHECK_IS_ON (32767 >=? audio_level)%Z
    "32767 >= result.audio_level";;
  let quantized_audio_level := Level level in
  RTC_DCHECK RTC_DCHECK_IS_ON (0 <=? quantized_audio_level)%Z
    "0 <= result.quantized_audio_level";;
  RTC_DCHECK RTC_DCHECK_IS_ON (9 >=? quantized_audio_level)%Z
    "9 >= result.quantized_audio_level";;
  mret {| audio_level := audio_level;
          quantized_audio_level := quantized_audio_level;
          total_energy := TotalEnergy level;
          total_duration := TotalDuration level |}.

End Stats.

(** The calls of the thread-confined methods that return nothing. *)
Inductive Op : Type :=
| DoAddSendingStream (stream : N) (sample_rate_hz : Z) (num_channels : N)
| DoRemoveSendingStream (stream : N)
| DoSetPlayout (enabled : bool)
| DoSetRecording (enabled : bool)
| DoSetStereoChannelSwapping (enable : bool).

Section Runs.

Variable RTC_DCHECK_IS_ON : bool.

Definition do_op (o : Op) : M unit :=
  match o with
  | DoAddSendingStream stream sample_rate_hz num_channels =>
      AddSendingStream stream sample_rate_hz num_channels
  | DoRemoveSendingStream stream => RemoveSendingStream RTC_DCHECK_IS_ON stream
  | DoSetPlayout enabled => SetPlayout enabled
  | DoSetRecording enabled => SetRecording enabled
  | DoSetStereoChannelSwapping enable => SetStereoChannelSwapping enable
  end.

(** The calls of [l], one after the other, as far as none stops at an
    assertion. *)
Fixpoint do_ops (l : list Op) : M unit :=
  match l with
  | [] => mret tt
  | o :: l => do_op o;; do_ops l
  end.

(** [AddRef] called [n] times. *)
Fixpoint AddRefs (n : nat) : M unit :=
  match n with
  | O => mret tt
  | S n => AddRef;; AddRefs n
  end.

(** [Release] called [n] times, with the answers in order. *)
Fixpoint Releases (n : nat) : M (list RefCountReleaseStatus) :=
  match n with
  | O => mret []
  | S n =>
      status ← Release RTC_DCHECK_IS_ON;
      rest ← Releases n;
      mret (status :: rest)
  end.

End Runs.

(** What a trace says of the collaborators: the last aggregate the
    transport was handed, the last playout setting the voice engine was
    given, and the pollers made and destroyed. *)
Definition last_update (l : list Call) : option Call :=
  last (List.filter
          (λ c, if c is Transport_UpdateSendingStreams _ _ _ then true
                else false) l).

Definition last_playout (l : list Call) : option bool :=
  last (omap (λ c, if c is VoeBase_SetPlayout enabled then Some enabled
                   else None) l).

Definition pollers_created (l : list Call) : nat :=
  length (List.filter (λ c, if c is NullAudioPollerCreated then true
                            else false) l).

Definition pollers_destroyed (l : list Call) : nat :=
  length (List.filter (λ c, if c is NullAudioPollerDestroyed then true
                            else false) l).

End AudioState.

(** * The frame-cadence adapter *)

Module FrameCadenceAdapter.

(** Modelled from the spec: [VideoTrackSourceConstraints], declared in a
    header that is not among the sources: an optional [min_fps] and an
    optional [max_fps], independently nullable and unvalidated.  Frame rates
    are taken to be whole numbers, so that passing one as the [int] sample
    of a histogram macro leaves its value as it is. *)
Record VideoTrackSourceConstraints : Type := {
  min_fps : option Z;
  max_fps : option Z
}.

(** Modelled from the spec: a frame is an opaque payload; the model names
    it by a number. *)
Definition VideoFrame : Type := N.

(** [Timestamp], as a count of microseconds. *)
Definition Timestamp : Type := Z.

(** What the histogram macros hand to the metrics sink. *)
Inductive Sample : Type :=
| RTC_HISTOGRAM_BOOLEAN (name : string) (sample : bool)
| RTC_HISTOGRAM_COUNTS_100 (name : string) (sample : Z)
| RTC_HISTOGRAM_ENUMERATION_SPARSE (name : string) (sample : Z) (boundary : Z).

(** Calls made on a [Callback], with the callback they are made on. *)
Inductive CallbackCall : Type :=
| Callback_OnFrame (callback : N) (post_time : Timestamp)
                   (frames_scheduled_for_processing : Z) (frame : VideoFrame)
| Callback_OnDiscardedFrame (callback : N).

(** The two closures posted to [queue_], with what they capture. *)
Inductive Task : Type :=
| OnFrameTask (post_time : Timestamp) (frame : VideoFrame)
| OnConstraintsChangedTask (constraints : VideoTrackSourceConstraints).

(** The data members of [FrameCadenceAdapterImpl] that the methods use.
    [callback_] is a pointer: [None] is [nullptr]. *)
Record Adapter : Type := {
  callback_ : option N;
  source_constraints_ : option VideoTrackSourceConstraints;
  zero_hertz_and_uma_reporting_enabled_ : bool;
  has_reported_screenshare_frame_rate_umas_ : bool;
  frames_scheduled_for_processing_ : Z
}.

(** The adapter with its surroundings: the safety flag of [safety_], the
    tasks posted to [queue_] that have not run yet (oldest first), the
    [OnFrame] call that has done its [fetch_add] and not yet posted, and the
    traces of callback calls and histogram samples. *)
Record World : Type := {
  self : Adapter;
  alive : bool;
  queue : list Task;
  posting : option (Timestamp * VideoFrame);
  callback_calls : list CallbackCall;
  histograms : list Sample
}.

Definition FrameCadenceAdapterImpl_new : World :=
  {| self := {| callback_ := None; source_constraints_ := None;
                zero_hertz_and_uma_reporting_enabled_ := false;
                has_reported_screenshare_frame_rate_umas_ := false;
                frames_scheduled_for_processing_ := 0 |};
     alive := true; queue := []; posting := None;
     callback_calls := []; histograms := [] |}.

Definition set_callback (c : option N) (a : Adapter) : Adapter :=
  {| callback_ := c; source_constraints_ := source_constraints_ a;
     zero_hertz_and_uma_reporting_enabled_ :=
       zero_hertz_and_uma_reporting_enabled_ a;
     has_reported_screenshare_frame_rate_umas_ :=
       has_reported_screenshare_frame_rate_umas_ a;
     frames_scheduled_for_processing_ := frames_scheduled_for_processing_ a |}.
Definition set_source_constraints (c : option VideoTrackSourceConstraints)
    (a : Adapter) : Adapter :=
  {| callback_ := callback_ a; source_constraints_ := c;
     zero_hertz_and_uma_reporting_enabled_ :=
       zero_hertz_and_uma_reporting_enabled_ a;
     has_reported_screenshare_frame_rate_umas_ :=
       has_reported_screenshare_frame_rate_umas_ a;
     frames_scheduled_for_processing_ := frames_scheduled_for_processing_ a |}.
Definition set_zero_hertz (b : bool) (a : Adapter) : Adapter :=
  {| callback_ := callback_ a; source_constraints_ := source_constraints_ a;
     zero_hertz_and_uma_reporting_enabled_ := b;
     has_reported_screenshare_frame_rate_umas_ :=
       has_reported_screenshare_frame_rate_umas_ a;
     frames_scheduled_for_processing_ := frames_scheduled_for_processing_ a |}.
Definition set_has_reported (b : bool) (a : Adapter) : Adapter :=
  {| callback_ := callback_ a; source_constraints_ := source_constraints_ a;
     zero_hertz_and_uma_reporting_enabled_ :=
       zero_hertz_and_uma_reporting_enabled_ a;
     has_reported_screenshare_frame_rate_umas_ := b;
     frames_scheduled_for_processing_ := frames_scheduled_for_processing_ a |}.
Definition set_frames_scheduled (n : Z) (a : Adapter) : Adapter :=
  {| callback_ := callback_ a; source_constraints_ := source_constraints_ a;
     zero_hertz_and_uma_reporting_enabled_ :=
       zero_hertz_and_uma_reporting_enabled_ a;
     has_reported_screenshare_frame_rate_umas_ :=
       has_reported_screenshare_frame_rate_umas_ a;
     frames_scheduled_for_processing_ := n |}.

Definition on_self (f : Adapter → Adapter) (w : World) : World :=
  {| self := f (self w); alive := alive w; queue := queue w;
     posting := posting w; callback_calls := callback_calls w;
     histograms := histograms w |}.
Definition set_alive (b : bool) (w : World) : World :=
  {| self := self w; alive := b; queue := queue w; posting := posting w;
     callback_calls := callback_calls w; histograms := histograms w |}.
Definition set_queue (q : list Task) (w : World) : World :=
  {| self := self w; alive := alive w; queue := q; posting := posting w;
     callback_calls := callback_calls w; histograms := histograms w |}.
Definition set_posting (p : option (Timestamp * VideoFrame)) (w : World)
  : World :=
  {| self := self w; alive := alive w; queue := queue w; posting := p;
     callback_calls := callback_calls w; histograms := histograms w |}.
Definition record_callback (c : CallbackCall) (w : World) : World :=
  {| self := self w; alive := alive w; queue := queue w;
     posting := posting w; callback_calls := callback_calls w ++ [c];
     histograms := histograms w |}.
Definition record_samples (l : list Sample) (w : World) : World :=
  {| self := self w; alive := alive w; queue := queue w;
     posting := posting w; callback_calls := callback_calls w;
     histograms := histograms w ++ l |}.

(** ** Methods *)

Definition Initialize (callback : N) (w : World) : World :=
  on_self (set_callback (Some callback)) w.

Definition SetZeroHertzModeEnabled (enabled : bool) (w : World) : World :=
  let w :=
    if enabled && negb (zero_hertz_and_uma_reporting_enabled_ (self w))
    then on_self (set_has_reported false) w else w in
  on_self (set_zero_hertz enabled) w.

(** [OnFrame], in the two steps another thread can tell apart: reading the
    clock and [fetch_add], then [PostTask].  [now] is what
    [clock_->CurrentTime()] returns. *)
Definition OnFrame_fetch_add (now : Timestamp) (frame : VideoFrame)
    (w : World) : World :=
  let post_time := now in
  set_posting (Some (post_time, frame))
    (on_self (λ a, set_frames_scheduled
       (wrap_int (frames_scheduled_for_processing_ a + 1)) a) w).

Definition OnFrame_PostTask (w : World) : World :=
  match posting w with
  | Some (post_time, frame) =>
      set_posting None (set_queue (queue w ++ [OnFrameTask post_time frame]) w)
  | None => w
  end.

Definition OnFrame (now : Timestamp) (frame : VideoFrame) (w : World)
  : World :=
  OnFrame_PostTask (OnFrame_fetch_add now frame w).

Definition OnConstraintsChanged (constraints : VideoTrackSourceConstraints)
    (w : World) : World :=
  set_queue (queue w ++ [OnConstraintsChangedTask constraints]) w.

(** A call through [callback_] is defined only when it is not [nullptr]. *)
Definition OnDiscardedFrame (w : World) : option World :=
  callback ← callback_ (self w);
  Some (record_callback (Callback_OnDiscardedFrame callback) w).

Definition OnFrameOnMainQueue (post_time : Timestamp)
    (frames_scheduled_for_processing : Z) (frame : VideoFrame) (w : World)
  : option World :=
  callback ← callback_ (self w);
  Some (record_callback
          (Callback_OnFrame callback post_time
             frames_scheduled_for_processing frame) w).

Definition kMaxBucketCount : Z := 60 * 60 + 60 - 1.

(** The samples [MaybeReportFrameRateConstraintUmas] records once it is
    past its two guards, in the order of the macros. *)
Definition frame_rate_constraint_umas
    (source_constraints_ : option VideoTrackSourceConstraints)
  : list Sample :=
  [RTC_HISTOGRAM_BOOLEAN "WebRTC.Screenshare.FrameRateConstraints.Exists"
     (if source_constraints_ is Some _ then true else false)] ++
  match source_constraints_ with
  | None => []
  | Some c =>
    [RTC_HISTOGRAM_BOOLEAN
       "WebRTC.Screenshare.FrameRateConstraints.Min.Exists"
       (if min_fps c is Some _ then true else false)] ++
    (if min_fps c is Some mn
     then [RTC_HISTOGRAM_COUNTS_100
             "WebRTC.Screenshare.FrameRateConstraints.Min.Value" mn]
     else []) ++
    [RTC_HISTOGRAM_BOOLEAN
       "WebRTC.Screenshare.FrameRateConstraints.Max.Exists"
       (if max_fps c is Some _ then true else false)] ++
    (if max_fps c is Some mx
     then [RTC_HISTOGRAM_COUNTS_100
             "WebRTC.Screenshare.FrameRateConstraints.Max.Value" mx]
     else []) ++
    match min_fps c, max_fps c with
    | None, Some mx =>
        [RTC_HISTOGRAM_COUNTS_100
           "WebRTC.Screenshare.FrameRateConstraints.MinUnset.Max" mx]
    | None, None => []
    | Some mn, Some mx =>
        (if (mn <? mx)%Z
         then [RTC_HISTOGRAM_COUNTS_100
                 "WebRTC.Screenshare.FrameRateConstraints.MinLessThanMax.Min"
                 mn;
               RTC_HISTOGRAM_COUNTS_100
                 "WebRTC.Screenshare.FrameRateConstraints.MinLessThanMax.Max"
                 mx]
         else []) ++
        [RTC_HISTOGRAM_ENUMERATION_SPARSE
           "WebRTC.Screenshare.FrameRateConstraints.60MinPlusMaxMinusOne"
           (mn * 60 + mx - 1)%Z kMaxBucketCount]
    | Some _, None => []
    end
  end.

Definition MaybeReportFrameRateConstraintUmas (w : World) : World :=
  if has_reported_screenshare_frame_rate_umas_ (self w) then w
  else
    let w := on_self (set_has_reported true) w in
    if negb (zero_hertz_and_uma_reporting_enabled_ (self w)) then w
    else record_samples
           (frame_rate_constraint_umas (source_constraints_ (self w))) w.

(** The bodies of the posted closures, run on the queue. *)
Definition run_closure (t : Task) (w : World) : option World :=
  match t with
  | OnFrameTask post_time frame =>
      let frames_scheduled_for_processing :=
        frames_scheduled_for_processing_ (self w) in
      let w := on_self (set_frames_scheduled
                 (wrap_int (frames_scheduled_for_processing - 1))) w in
      w ← OnFrameOnMainQueue post_time frames_scheduled_for_processing
            frame w;
      Some (MaybeReportFrameRateConstraintUmas w)
  | OnConstraintsChangedTask constraints =>
      Some (on_self (set_source_constraints (Some constraints)) w)
  end.

(** The queue runs its oldest task.  A task made by [ToQueuedTask] with the
    safety flag runs its closure only while the flag is alive. *)
Definition RunNextTask (w : World) : option World :=
  match queue w with
  | [] => None
  | t :: rest =>
      let w := set_queue rest w in
      if alive w then run_closure t w else Some w
  end.

(** The adapter is destroyed: [safety_] marks its flag as not alive. *)
Definition Destroy (w : World) : World := set_alive false w.

(** ** Runs

    What the two threads can do to an adapter, one step at a time.  A
    method is called only on an adapter that still exists; calls of
    [OnFrame] do not overlap. *)
Inductive Action : Type :=
| DoInitialize (callback : N)
| DoSetZeroHertzModeEnabled (enabled : bool)
| DoOnFrame_fetch_add (now : Timestamp) (frame : VideoFrame)
| DoOnFrame_PostTask
| DoOnDiscardedFrame
| DoOnConstraintsChanged (constraints : VideoTrackSourceConstraints)
| DoRunNextTask
| DoDestroy.

Definition exec (a : Action) (w : World) : option World :=
  match a with
  | DoRunNextTask => RunNextTask w
  | DoInitialize callback =>
      if alive w then Some (Initialize callback w) else None
  | DoSetZeroHertzModeEnabled enabled =>
      if alive w then Some (SetZeroHertzModeEnabled enabled w) else None
  | DoOnFrame_fetch_add now frame =>
      if alive w then
        if posting w is None then Some (OnFrame_fetch_add now frame w)
        else None
      else None
  | DoOnFrame_PostTask =>
      if alive w then
        if posting w is Some _ then Some (OnFrame_PostTask w) else None
      else None
  | DoOnDiscardedFrame => if alive w then OnDiscardedFrame w else None
  | DoOnConstraintsChanged constraints =>
      if alive w then Some (OnConstraintsChanged constraints w) else None
  | DoDestroy =>
      if alive w then
        if posting w is None then Some (Destroy w) else None
      else None
  end.

Fixpoint run (l : list Action) (w : World) : option World :=
  match l with
  | [] => Some w
  | a :: l => w ← exec a w; run l w
  end.

(** The queue runs its [n] oldest tasks. *)
Fixpoint RunTasks (n : nat) (w : World) : option World :=
  match n with
  | O => Some w
  | S n => w ← RunNextTask w; RunTasks n w
  end.

(** [OnFrame] is called once for each element of [frames], in order. *)
Definition OnFrames (frames : list (Timestamp * VideoFrame)) (w : World)
  : World :=
  foldl (λ w tf, OnFrame tf.1 tf.2 w) w frames.

(** [OnFrame] is called for each of [frames], and the queue then runs as
    many tasks. *)
Definition DeliverFrames (frames : list (Timestamp * VideoFrame)) (w : World)
  : option World :=
  RunTasks (length frames) (OnFrames frames w).

(** The tasks [OnFrame] posts for [frames]. *)
Definition OnFrameTasks (frames : list (Timestamp * VideoFrame)) : list Task :=
  (λ tf, OnFrameTask tf.1 tf.2) <$> frames.

(** The calls the callback gets when the queue runs the tasks of [frames]
    with the counter at [n]: each task hands over the counter as it finds
    it and leaves it decremented. *)
Fixpoint deliveries (callback : N) (n : Z)
    (frames : list (Timestamp * VideoFrame)) : list CallbackCall :=
  match frames with
  | [] => []
  | tf :: frames =>
      Callback_OnFrame callback tf.1 n tf.2
        :: deliveries callback (wrap_int (n - 1)) frames
  end.

(** Frames that [OnFrame] has counted and the queue has not delivered. *)
Definition is_OnFrameTask (t : Task) : bool :=
  if t is OnFrameTask _ _ then true else false.

Definition in_flight (w : World) : Z :=
  Z.of_nat (length (List.filter is_OnFrameTask (queue w)))
  + (if posting w is Some _ then 1 else 0).

(** The counts the callback has been given with its frames, oldest first. *)
Definition delivered_counts (l : list CallbackCall) : list Z :=
  omap (λ c, if c is Callback_OnFrame _ _ n _ then Some n else None) l.

(** States of runs that start from a new adapter and never have more than
    [INT_MAX] frames in flight. *)
Inductive reachable : World → Prop :=
| reachable_new : reachable FrameCadenceAdapterImpl_new
| reachable_step a w w' :
    reachable w → exec a w = Some w' → (in_flight w' ≤ INT_MAX)%Z →
    reachable w'.

(** ** Sessions

    The sessions a run starts: its calls [SetZeroHertzModeEnabled(true)]
    that find the mode disabled, [enabled] being the mode before the
    run. *)
Fixpoint session_starts (enabled : bool) (l : list Action) : nat :=
  match l with
  | [] => 0
  | DoSetZeroHertzModeEnabled b :: l =>
      (if b && negb enabled then 1 else 0) + session_starts b l
  | _ :: l => session_starts enabled l
  end.

(** Whether the adapter is in a session that has not reported yet. *)
Definition report_due (w : World) : nat :=
  if zero_hertz_and_uma_reporting_enabled_ (self w)
     && negb (has_reported_screenshare_frame_rate_umas_ (self w))
  then 1 else 0.

(** [OnConstraintsChanged] is called once for each element of [l], in
    order. *)
Definition OnConstraintsChangeds (l : list VideoTrackSourceConstraints)
    (w : World) : World :=
  foldl (λ w c, OnConstraintsChanged c w) w l.

End FrameCadenceAdapter.
(** * Properties *)

Lemma wrap_int_id z : is_int z → wrap_int z = z.
Proof.
  unfold is_int, INT_MIN, INT_MAX, wrap_int. intros Hz.
  rewrite Z.mod_small; lia.
Qed.

Lemma wrap_int_range z : is_int (wrap_int z).
Proof.
  unfold is_int, INT_MIN, INT_MAX, wrap_int.
  pose proof (Z.mod_pos_bound (z + 2 ^ 31) (2 ^ 32)). lia.
Qed.

(** ** The audio-state coordinator *)

Module AudioStateFacts.
Import AudioState.

Lemma foldl_aggregate_step l : ∀ ids r c,
  foldl aggregate_step (ids, r, c) l =
    (ids ++ l.*1,
     foldl Z.max r (sample_rate_hz ∘ snd <$> l),
     foldl N.max c (num_channels ∘ snd <$> l)).
Proof.
  induction l as [|[k p] l IH]; intros ids r c; simpl.
  - by rewrite app_nil_r.
  - rewrite IH. by rewrite <- app_assoc.
Qed.

Lemma foldl_Zmax_spec l : ∀ r,
  (r ≤ foldl Z.max r l)%Z ∧
  Forall (λ x, (x ≤ foldl Z.max r l)%Z) l ∧
  (foldl Z.max r l = r ∨ foldl Z.max r l ∈ l).
Proof.
  induction l as [|x l IH]; intros r; simpl.
  - split; [lia|]. split; [constructor | by left].
  - destruct (IH (Z.max r x)) as (Hle & Hall & Hin).
    split; [lia|]. split.
    + constructor; [lia | done].
    + destruct Hin as [Heq | Hin].
      * rewrite Heq. destruct (Z.max_spec r x) as [[_ ->]|[_ ->]].
        -- right. left.
        -- by left.
      * right. by right.
Qed.

Lemma foldl_Nmax_spec l : ∀ c,
  (c ≤ foldl N.max c l)%N ∧
  Forall (λ x, (x ≤ foldl N.max c l)%N) l ∧
  (foldl N.max c l = c ∨ foldl N.max c l ∈ l).
Proof.
  induction l as [|x l IH]; intros c; simpl.
  - split; [lia|]. split; [constructor | by left].
  - destruct (IH (N.max c x)) as (Hle & Hall & Hin).
    split; [lia|]. split.
    + constructor; [lia | done].
    + destruct Hin as [Heq | Hin].
      * rewrite Heq. destruct (N.max_spec c x) as [[_ ->]|[_ ->]].
        -- right. left.
        -- by left.
      * right. by right.
Qed.

(** What the loop computes: the keys of the map, and the largest rate and
    channel count among the floors and the entries. *)
Lemma aggregate_spec (m : gmap N StreamProperties) ids r c :
  aggregate m = (ids, r, c) →
  ids = (map_to_list m).*1 ∧ NoDup ids ∧
  (∀ k, k ∈ ids ↔ is_Some (m !! k)) ∧
  (8000 ≤ r)%Z ∧ (∀ k p, m !! k = Some p → (sample_rate_hz p ≤ r)%Z) ∧
  (r = 8000%Z ∨ ∃ k p, m !! k = Some p ∧ r = sample_rate_hz p) ∧
  (1 ≤ c)%N ∧ (∀ k p, m !! k = Some p → (num_channels p ≤ c)%N) ∧
  (c = 1%N ∨ ∃ k p, m !! k = Some p ∧ c = num_channels p).
Proof.
  unfold aggregate. rewrite foldl_aggregate_step. simpl. intros [= <- <- <-].
  split; [done|]. split; [apply NoDup_fst_map_to_list|].
  split.
  { intros k. rewrite list_elem_of_fmap. split.
    - intros [[k' p] [-> Hin]]. apply elem_of_map_to_list in Hin. by exists p.
    - intros [p Hp]. exists (k, p). split; [done|].
      by apply elem_of_map_to_list. }
  destruct (foldl_Zmax_spec (sample_rate_hz ∘ snd <$> map_to_list m) 8000)
    as (Hr1 & Hr2 & Hr3).
  destruct (foldl_Nmax_spec (num_channels ∘ snd <$> map_to_list m) 1)
    as (Hc1 & Hc2 & Hc3).
  rewrite Forall_fmap, Forall_forall in Hr2.
  rewrite Forall_fmap, Forall_forall in Hc2.
  repeat split.
  - done.
  - intros k p Hp. apply (Hr2 (k, p)). by apply elem_of_map_to_list.
  - destruct Hr3 as [Hr3 | Hr3]; [by left | right].
    apply list_elem_of_fmap in Hr3 as [[k p] [Heq Hin]].
    exists k, p. split; [by apply elem_of_map_to_list | done].
  - done.
  - intros k p Hp. apply (Hc2 (k, p)). by apply elem_of_map_to_list.
  - destruct Hc3 as [Hc3 | Hc3]; [by left | right].
    apply list_elem_of_fmap in Hc3 as [[k p] [Heq Hin]].
    exists k, p. split; [by apply elem_of_map_to_list | done].
Qed.

(** *** The methods, run *)

Ltac run_M :=
  repeat (progress (unfold mbind, M_bind, mret, M_ret, get, modify, call,
                      when, RTC_DCHECK; cbn)).

Lemma UpdateAudioTransportWithSendingStreams_run w :
  UpdateAudioTransportWithSendingStreams w =
    Done (tt, record_call (pushed (sending_streams_ w)) w).
Proof.
  unfold UpdateAudioTransportWithSendingStreams, pushed. run_M.
  by destruct (aggregate (sending_streams_ w)) as [[ids r] c].
Qed.

Lemma AddSendingStream_run stream rate ch w :
  let m := <[stream := {| sample_rate_hz := rate; num_channels := ch |}]>
             (sending_streams_ w) in
  AddSendingStream stream rate ch w =
    Done (tt, record_call (pushed m) (set_sending_streams m w)).
Proof.
  unfold AddSendingStream. run_M.
  by rewrite UpdateAudioTransportWithSendingStreams_run.
Qed.

Lemma RemoveSendingStream_run dcheck stream w :
  let m := delete stream (sending_streams_ w) in
  RemoveSendingStream dcheck stream w =
    if dcheck && negb (bool_decide (is_Some (sending_streams_ w !! stream)))
    then CheckFailed "1 == count"
    else Done (tt, record_call (pushed m) (set_sending_streams m w)).
Proof.
  unfold RemoveSendingStream. run_M.
  destruct (sending_streams_ w !! stream) as [p|] eqn:Hp; cbn.
  - rewrite andb_false_r.
    by rewrite UpdateAudioTransportWithSendingStreams_run.
  - destruct dcheck; cbn; [done|].
    by rewrite UpdateAudioTransportWithSendingStreams_run.
Qed.

Lemma pushed_empty : pushed ∅ = Transport_UpdateSendingStreams [] 8000 1.
Proof. unfold pushed, aggregate. by rewrite map_to_list_empty. Qed.

Lemma pushed_singleton k p :
  pushed {[k := p]} =
    Transport_UpdateSendingStreams [k] (Z.max 8000 (sample_rate_hz p))
                                   (N.max 1 (num_channels p)).
Proof. unfold pushed, aggregate. by rewrite map_to_list_singleton. Qed.

(** Sequencing two methods whose first completes. *)
Lemma seq_Done {A B} (c : M A) (k : M B) w a w' :
  c w = Done (a, w') → (c;; k) w = k w'.
Proof. unfold mbind, M_bind. by intros ->. Qed.

(** C5: after every insert and every remove the transport is handed the
    aggregate of the stream map as it then is: the keys of the map, and
    the largest sample rate and channel count among the entries and the
    floors 8000 Hz and 1 channel.  Adding A (16000, 1), adding B (48000, 2)
    and removing A, for distinct streams A and B, ends with the aggregate
    (48000, 2, [B]); with no stream the aggregate is (8000, 1, []). *)
Theorem C5_aggregate_recomputed_in_full :
  (∀ w stream rate ch, ∃ w',
     AddSendingStream stream rate ch w = Done (tt, w') ∧
     sending_streams_ w' =
       <[stream := {| sample_rate_hz := rate; num_channels := ch |}]>
         (sending_streams_ w) ∧
     calls w' = calls w ++ [pushed (sending_streams_ w')]) ∧
  (∀ dcheck w stream, is_Some (sending_streams_ w !! stream) → ∃ w',
     RemoveSendingStream dcheck stream w = Done (tt, w') ∧
     sending_streams_ w' = delete stream (sending_streams_ w) ∧
     calls w' = calls w ++ [pushed (sending_streams_ w')]) ∧
  (∀ m ids r c, pushed m = Transport_UpdateSendingStreams ids r c →
     NoDup ids ∧ (∀ k, k ∈ ids ↔ is_Some (m !! k)) ∧
     (8000 ≤ r)%Z ∧ (∀ k p, m !! k = Some p → (sample_rate_hz p ≤ r)%Z) ∧
     (r = 8000%Z ∨ ∃ k p, m !! k = Some p ∧ r = sample_rate_hz p) ∧
     (1 ≤ c)%N ∧ (∀ k p, m !! k = Some p → (num_channels p ≤ c)%N) ∧
     (c = 1%N ∨ ∃ k p, m !! k = Some p ∧ c = num_channels p)) ∧
  (∀ dcheck A B, A ≠ B → ∃ w',
     (AddSendingStream A 16000 1;; AddSendingStream B 48000 2;;
      RemoveSendingStream dcheck A) AudioState_new = Done (tt, w') ∧
     sending_streams_ w' =
       {[B := {| sample_rate_hz := 48000; num_channels := 2 |}]} ∧
     last (calls w') = Some (Transport_UpdateSendingStreams [B] 48000 2)) ∧
  pushed ∅ = Transport_UpdateSendingStreams [] 8000 1.
Proof.
  split; [|split; [|split; [|split]]].
  - intros w stream rate ch. eexists. rewrite AddSendingStream_run. cbn.
    by repeat split.
  - intros dcheck w stream Hin. eexists. rewrite RemoveSendingStream_run. cbn.
    rewrite bool_decide_eq_true_2, andb_false_r by done. by repeat split.
  - intros m ids r c. unfold pushed.
    destruct (aggregate m) as [[ids' r'] c'] eqn:Hagg. intros [= -> -> ->].
    apply aggregate_spec in Hagg.
    destruct Hagg as (_ & ? & ? & ? & ? & ? & ? & ? & ?).
    repeat (split; [done|]). done.
  - intros dcheck A B HAB. eexists.
    erewrite seq_Done by apply AddSendingStream_run.
    erewrite seq_Done by apply AddSendingStream_run.
    rewrite RemoveSendingStream_run. cbn.
    rewrite lookup_insert_ne, lookup_insert_eq by done.
    rewrite bool_decide_eq_true_2, andb_false_r by eauto.
    rewrite delete_insert_ne, delete_insert_eq, delete_empty by done.
    rewrite insert_empty.
    split; [done|]. cbn. split; [done|].
    by rewrite pushed_singleton.
  - apply pushed_empty.
Qed.

(** One run of C5: the streams at addresses 7 and 9. *)
Lemma C5_witness :
  7%N ≠ 9%N ∧
  ∃ w', (AddSendingStream 7 16000 1;; AddSendingStream 9 48000 2;;
         RemoveSendingStream true 7) AudioState_new = Done (tt, w') ∧
        sending_streams_ w' =
          {[9%N := {| sample_rate_hz := 48000; num_channels := 2 |}]} ∧
        last (calls w') = Some (Transport_UpdateSendingStreams [9%N] 48000 2).
Proof.
  split; [done|].
  apply (proj1 (proj2 (proj2 (proj2 C5_aggregate_recomputed_in_full)))).
  done.
Defined.

(** C10: every [AddSendingStream] hands the transport the aggregate of the
    map it leaves, also when the entry was already there with the same
    rate and channel count, and twice when made twice; every
    [RemoveSendingStream] that gets past its assertion does so as well, and
    it gets past it exactly when the stream is in the map or the assertion
    is compiled out. *)
Theorem C10_transport_update_never_skipped :
  (∀ w stream rate ch, ∃ w',
     AddSendingStream stream rate ch w = Done (tt, w') ∧
     calls w' = calls w ++ [pushed (sending_streams_ w')]) ∧
  (∀ w stream rate ch,
     sending_streams_ w !! stream =
       Some {| sample_rate_hz := rate; num_channels := ch |} →
     ∃ w', AddSendingStream stream rate ch w = Done (tt, w') ∧
           sending_streams_ w' = sending_streams_ w ∧
           calls w' = calls w ++ [pushed (sending_streams_ w)]) ∧
  (∀ w stream rate ch, ∃ w',
     (AddSendingStream stream rate ch;; AddSendingStream stream rate ch) w
       = Done (tt, w') ∧
     calls w' = calls w ++ [pushed (sending_streams_ w');
                            pushed (sending_streams_ w')]) ∧
  (∀ dcheck w stream,
     dcheck = false ∨ is_Some (sending_streams_ w !! stream) →
     ∃ w', RemoveSendingStream dcheck stream w = Done (tt, w') ∧
           calls w' = calls w ++ [pushed (sending_streams_ w')]) ∧
  (∀ dcheck w stream w',
     RemoveSendingStream dcheck stream w = Done (tt, w') →
     dcheck = false ∨ is_Some (sending_streams_ w !! stream)).
Proof.
  split; [|split; [|split; [|split]]].
  - intros w stream rate ch. eexists. rewrite AddSendingStream_run. cbn.
    by split.
  - intros w stream rate ch Hin. eexists. rewrite AddSendingStream_run. cbn.
    rewrite (insert_id _ _ _ Hin). by repeat split.
  - intros w stream rate ch. eexists.
    erewrite seq_Done by apply AddSendingStream_run.
    rewrite AddSendingStream_run. cbn. rewrite insert_insert_eq.
    split; [done|]. cbn. by rewrite <- app_assoc.
  - intros dcheck w stream Hok. eexists. rewrite RemoveSendingStream_run. cbn.
    destruct Hok as [-> | Hin].
    + by split.
    + rewrite bool_decide_eq_true_2, andb_false_r by done. by split.
  - intros dcheck w stream w'. rewrite RemoveSendingStream_run. cbn.
    destruct dcheck; [|by left]. cbn.
    case_bool_decide; [by right | done].
Qed.

(** One run of C10: a stream registered twice with the same parameters. *)
Lemma C10_witness :
  ∃ w', AddSendingStream 7 48000 2
          (set_sending_streams
             {[7%N := {| sample_rate_hz := 48000; num_channels := 2 |}]}
             AudioState_new) = Done (tt, w') ∧
        sending_streams_ w' =
          {[7%N := {| sample_rate_hz := 48000; num_channels := 2 |}]} ∧
        calls w' = [pushed
          {[7%N := {| sample_rate_hz := 48000; num_channels := 2 |}]}].
Proof.
  exact (proj1 (proj2 C10_transport_update_never_skipped)
           (set_sending_streams
              {[7%N := {| sample_rate_hz := 48000; num_channels := 2 |}]}
              AudioState_new) 7%N 48000%Z 2%N eq_refl).
Defined.

(** C8: [RemoveSendingStream] of a stream that is in the map never stops at
    the assertion: it erases that one entry and no other, and hands the
    transport the aggregate of what is left.  Of a stream that is not in
    the map it stops at the assertion, when assertions are compiled in; the
    assertion fails in no other case. *)
Theorem C8_remove_requires_existing_stream :
  (∀ dcheck w stream p, sending_streams_ w !! stream = Some p → ∃ w',
     RemoveSendingStream dcheck stream w = Done (tt, w') ∧
     sending_streams_ w' !! stream = None ∧
     (∀ k, k ≠ stream → sending_streams_ w' !! k = sending_streams_ w !! k) ∧
     S (size (sending_streams_ w')) = size (sending_streams_ w) ∧
     calls w' = calls w ++ [pushed (sending_streams_ w')]) ∧
  (∀ w stream, sending_streams_ w !! stream = None →
     RemoveSendingStream true stream w = CheckFailed "1 == count") ∧
  (∀ dcheck w stream what,
     RemoveSendingStream dcheck stream w = CheckFailed what →
     dcheck = true ∧ sending_streams_ w !! stream = None).
Proof.
  split; [|split].
  - intros dcheck w stream p Hp. eexists. rewrite RemoveSendingStream_run.
    cbn. rewrite bool_decide_eq_true_2, andb_false_r by eauto.
    split; [done|]. cbn. split; [apply lookup_delete_eq|].
    split; [intros k Hk; by apply lookup_delete_ne|]. split; [|done].
    rewrite <- (insert_delete_id _ _ _ Hp) at 2.
    symmetry. apply map_size_insert_None, lookup_delete_eq.
  - intros w stream Hp. rewrite RemoveSendingStream_run. cbn.
    rewrite bool_decide_eq_false_2; [done|]. rewrite Hp. by intros [? ?].
  - intros dcheck w stream what. rewrite RemoveSendingStream_run. cbn.
    destruct dcheck; [|done]. cbn. case_bool_decide as Hin; [done|].
    intros _. split; [done|]. by apply eq_None_not_Some.
Qed.

(** One run of C8: the only stream of a coordinator is removed. *)
Lemma C8_witness :
  ∃ w', RemoveSendingStream true 7
          (set_sending_streams
             {[7%N := {| sample_rate_hz := 16000; num_channels := 1 |}]}
             AudioState_new) = Done (tt, w') ∧
        sending_streams_ w' !! 7%N = None ∧
        (∀ k, k ≠ 7%N → sending_streams_ w' !! k =
           ({[7%N := {| sample_rate_hz := 16000; num_channels := 1 |}]}
              : gmap N StreamProperties) !! k) ∧
        S (size (sending_streams_ w')) = 1 ∧
        calls w' = [pushed (sending_streams_ w')].
Proof.
  exact (proj1 C8_remove_requires_existing_stream true
           (set_sending_streams
              {[7%N := {| sample_rate_hz := 16000; num_channels := 1 |}]}
              AudioState_new) 7%N
           {| sample_rate_hz := 16000; num_channels := 1 |} eq_refl).
Defined.

Lemma SetPlayout_same enabled w :
  enabled = negb (null_audio_poller_ w) → SetPlayout enabled w = Done (tt, w).
Proof.
  intros ->. unfold SetPlayout. run_M. by rewrite Bool.eqb_reflx.
Qed.

Lemma SetPlayout_enable w :
  null_audio_poller_ w = true →
  SetPlayout true w =
    Done (tt, record_call (VoeBase_SetPlayout true)
                (set_null_audio_poller false
                   (record_call NullAudioPollerDestroyed w))).
Proof.
  intros Hp. unfold SetPlayout. run_M. by repeat (rewrite Hp; run_M).
Qed.

Lemma SetPlayout_disable w :
  null_audio_poller_ w = false →
  SetPlayout false w =
    Done (tt, set_null_audio_poller true
                (record_call NullAudioPollerCreated
                   (record_call (VoeBase_SetPlayout false) w))).
Proof.
  intros Hp. unfold SetPlayout. run_M. by repeat (rewrite Hp; run_M).
Qed.

(** C6: [SetPlayout] with the state playout is already in changes nothing
    and calls nothing.  Enabling destroys the poller and then enables
    playout; disabling disables playout and then creates the poller.  So
    two calls [SetPlayout(false)] in a row, playout being enabled before,
    make one call to disable playout and create one poller, after it. *)
Theorem C6_SetPlayout_noop_when_unchanged :
  (∀ w enabled, enabled = negb (null_audio_poller_ w) →
     SetPlayout enabled w = Done (tt, w)) ∧
  (∀ w, null_audio_poller_ w = true → ∃ w',
     SetPlayout true w = Done (tt, w') ∧
     null_audio_poller_ w' = false ∧
     calls w' = calls w ++ [NullAudioPollerDestroyed; VoeBase_SetPlayout true])
  ∧
  (∀ w, null_audio_poller_ w = false → ∃ w',
     SetPlayout false w = Done (tt, w') ∧
     null_audio_poller_ w' = true ∧
     calls w' = calls w ++ [VoeBase_SetPlayout false; NullAudioPollerCreated])
  ∧
  (∀ w, null_audio_poller_ w = false → ∃ w',
     (SetPlayout false;; SetPlayout false) w = Done (tt, w') ∧
     null_audio_poller_ w' = true ∧
     calls w' = calls w ++ [VoeBase_SetPlayout false; NullAudioPollerCreated]).
Proof.
  split; [|split; [|split]].
  - intros w enabled. apply SetPlayout_same.
  - intros w Hp. eexists. rewrite (SetPlayout_enable _ Hp). cbn.
    split; [done|]. split; [done|]. cbn. by rewrite <- app_assoc.
  - intros w Hp. eexists. rewrite (SetPlayout_disable _ Hp). cbn.
    split; [done|]. split; [done|]. cbn. by rewrite <- app_assoc.
  - intros w Hp. eexists.
    erewrite seq_Done by apply (SetPlayout_disable _ Hp).
    rewrite SetPlayout_same by done. cbn.
    split; [done|]. split; [done|]. cbn. by rewrite <- app_assoc.
Qed.

(** One run of C6: playout is disabled twice on a new coordinator. *)
Lemma C6_witness :
  ∃ w', (SetPlayout false;; SetPlayout false) AudioState_new = Done (tt, w') ∧
        null_audio_poller_ w' = true ∧
        calls w' = [VoeBase_SetPlayout false; NullAudioPollerCreated].
Proof.
  exact (proj2 (proj2 (proj2 C6_SetPlayout_noop_when_unchanged))
           AudioState_new eq_refl).
Defined.

Lemma Release_run dcheck w :
  let w1 := set_ref_count (wrap_int (ref_count_ w - 1)) w in
  Release dcheck w =
    if (wrap_int (ref_count_ w - 1) =? 0)%Z then
      if dcheck && negb (bool_decide (sending_streams_ w = ∅))
      then CheckFailed "sending_streams_.empty()"
      else Done (kDroppedLastRef,
                 set_deleted (if null_audio_poller_ w
                              then record_call NullAudioPollerDestroyed w1
                              else w1))
    else Done (kOtherRefsRemained, w1).
Proof.
  unfold Release. run_M.
  destruct (wrap_int (ref_count_ w - 1) =? 0)%Z; [|done].
  unfold destroy. run_M.
  destruct (dcheck && _); [done|]. cbn.
  by destruct (null_audio_poller_ w).
Qed.

(** C7: [Release] decrements the count and answers [kDroppedLastRef], with
    the object deleted, exactly when the decrement reaches zero, and
    [kOtherRefsRemained], with the object as it was, otherwise.  From a
    count of 1 the object is deleted (its destructor's assertion that no
    stream is left passing); from a count of 2 it survives with a count
    of 1. *)
Theorem C7_Release_reports_last_reference :
  (∀ dcheck w, ref_count_ w = 1%Z →
     dcheck = false ∨ sending_streams_ w = ∅ →
     ∃ w', Release dcheck w = Done (kDroppedLastRef, w') ∧
           deleted w' = true ∧ ref_count_ w' = 0%Z) ∧
  (∀ dcheck w, ref_count_ w = 2%Z →
     Release dcheck w = Done (kOtherRefsRemained, set_ref_count 1 w) ∧
     deleted (set_ref_count 1 w) = deleted w) ∧
  (∀ dcheck w status w', deleted w = false →
     Release dcheck w = Done (status, w') →
     ref_count_ w' = wrap_int (ref_count_ w - 1) ∧
     (deleted w' = true ↔ ref_count_ w' = 0%Z) ∧
     (status = kDroppedLastRef ↔ ref_count_ w' = 0%Z) ∧
     (status = kOtherRefsRemained ↔ ref_count_ w' ≠ 0%Z)) ∧
  (∀ dcheck w what, Release dcheck w = CheckFailed what →
     dcheck = true ∧ wrap_int (ref_count_ w - 1) = 0%Z ∧
     sending_streams_ w ≠ ∅).
Proof.
  split; [|split; [|split]].
  - intros dcheck w Hrc Hok. eexists. rewrite Release_run. cbn.
    rewrite Hrc. cbn.
    replace (dcheck && negb (bool_decide (sending_streams_ w = ∅)))
      with false.
    + split; [done|]. by destruct (null_audio_poller_ w).
    + destruct Hok as [-> | ->]; [done|].
      rewrite bool_decide_eq_true_2 by done. by rewrite andb_false_r.
  - intros dcheck w Hrc. rewrite Release_run. cbn. by rewrite Hrc.
  - intros dcheck w status w' Halive. rewrite Release_run. cbn.
    destruct (wrap_int (ref_count_ w - 1) =? 0)%Z eqn:Hz.
    + destruct (dcheck && _); [done|]. intros [= <- <-].
      apply Z.eqb_eq in Hz.
      destruct (null_audio_poller_ w); cbn; rewrite Hz; naive_solver.
    + intros [= <- <-]. apply Z.eqb_neq in Hz. cbn. rewrite Halive.
      naive_solver.
  - intros dcheck w what. rewrite Release_run. cbn.
    destruct (wrap_int (ref_count_ w - 1) =? 0)%Z eqn:Hz; [|done].
    apply Z.eqb_eq in Hz. destruct dcheck; [|done]. cbn.
    case_bool_decide; done.
Qed.

(** One run of C7: the last reference to a coordinator is released. *)
Lemma C7_witness :
  ∃ w', Release true (set_ref_count 1 AudioState_new)
          = Done (kDroppedLastRef, w') ∧
        deleted w' = true ∧ ref_count_ w' = 0%Z.
Proof.
  exact (proj1 C7_Release_reports_last_reference true
           (set_ref_count 1 AudioState_new) eq_refl (or_intror eq_refl)).
Defined.

(** *** Playout, recording and runs of calls *)

Lemma SetPlayout_run enabled w :
  ∃ w', SetPlayout enabled w = Done (tt, w') ∧
        null_audio_poller_ w' = negb enabled ∧
        sending_streams_ w' = sending_streams_ w ∧
        ref_count_ w' = ref_count_ w ∧ deleted w' = deleted w ∧
        calls w' = calls w ++
          if Bool.eqb enabled (negb (null_audio_poller_ w)) then []
          else if enabled
               then [NullAudioPollerDestroyed; VoeBase_SetPlayout true]
               else [VoeBase_SetPlayout false; NullAudioPollerCreated].
Proof.
  destruct enabled, (null_audio_poller_ w) eqn:Hp; cbn.
  - eexists. split; [apply (SetPlayout_enable _ Hp)|]. cbn.
    repeat (split; [done|]). by rewrite <- app_assoc.
  - eexists. split; [apply SetPlayout_same; by rewrite Hp|].
    repeat (split; [done|]). by rewrite app_nil_r.
  - eexists. split; [apply SetPlayout_same; by rewrite Hp|].
    repeat (split; [done|]). by rewrite app_nil_r.
  - eexists. split; [apply (SetPlayout_disable _ Hp)|]. cbn.
    repeat (split; [done|]). by rewrite <- app_assoc.
Qed.

(** X1: [SetPlayout] always completes, and leaves playout in the state
    asked for, whatever state it was in: the poller exists afterwards
    exactly when playout was disabled.  The streams, the reference count
    and the life of the object are not touched. *)
Theorem X1_SetPlayout_reaches_requested_state w enabled :
  ∃ w', SetPlayout enabled w = Done (tt, w') ∧
        null_audio_poller_ w' = negb enabled ∧
        sending_streams_ w' = sending_streams_ w ∧
        ref_count_ w' = ref_count_ w ∧ deleted w' = deleted w.
Proof.
  destruct (SetPlayout_run enabled w) as (w' & Hrun & ? & ? & ? & ? & _).
  by exists w'.
Qed.

(** X2: [SetPlayout] is idempotent from every state: a second call with
    the same argument right after the first changes nothing and calls
    nothing. *)
Theorem X2_SetPlayout_idempotent w enabled :
  (SetPlayout enabled;; SetPlayout enabled) w = SetPlayout enabled w.
Proof.
  destruct (SetPlayout_run enabled w) as (w' & Hrun & Hp & _).
  rewrite (seq_Done _ _ _ _ _ Hrun), Hrun.
  apply SetPlayout_same. by rewrite Hp, negb_involutive.
Qed.

Lemma do_ops_cons dcheck o l w :
  do_ops dcheck (o :: l) w = (do_op dcheck o;; do_ops dcheck l) w.
Proof. reflexivity. Qed.

(** What one call adds to the trace, and what it leaves of the state. *)
Lemma do_op_run dcheck o w w' :
  do_op dcheck o w = Done (tt, w') →
  ref_count_ w' = ref_count_ w ∧ deleted w' = deleted w ∧
  match o with
  | DoAddSendingStream _ _ _ | DoRemoveSendingStream _ =>
      null_audio_poller_ w' = null_audio_poller_ w ∧
      calls w' = calls w ++ [pushed (sending_streams_ w')]
  | DoSetPlayout enabled =>
      sending_streams_ w' = sending_streams_ w ∧
      null_audio_poller_ w' = negb enabled ∧
      calls w' = calls w ++
        if Bool.eqb enabled (negb (null_audio_poller_ w)) then []
        else if enabled
             then [NullAudioPollerDestroyed; VoeBase_SetPlayout true]
             else [VoeBase_SetPlayout false; NullAudioPollerCreated]
  | DoSetRecording enabled =>
      sending_streams_ w' = sending_streams_ w ∧
      null_audio_poller_ w' = null_audio_poller_ w ∧
      calls w' = calls w ++ [VoeBase_SetRecording enabled]
  | DoSetStereoChannelSwapping enable =>
      sending_streams_ w' = sending_streams_ w ∧
      null_audio_poller_ w' = null_audio_poller_ w ∧
      calls w' = calls w ++ [Transport_SetStereoChannelSwapping enable]
  end.
Proof.
  destruct o as [stream rate ch | stream | enabled | enabled | enable]; cbn.
  - rewrite AddSendingStream_run. cbn. by intros [= <-].
  - rewrite RemoveSendingStream_run. cbn.
    destruct (dcheck && _); [done|]. by intros [= <-].
  - destruct (SetPlayout_run enabled w) as (w1 & -> & ? & ? & ? & ? & ?).
    by intros [= <-].
  - unfold SetRecording. run_M. by intros [= <-].
  - unfold SetStereoChannelSwapping. run_M. by intros [= <-].
Qed.

Lemma do_ops_inv dcheck (P : World → Prop) :
  (∀ o w w', P w → do_op dcheck o w = Done (tt, w') → P w') →
  ∀ l w w', P w → do_ops dcheck l w = Done (tt, w') → P w'.
Proof.
  intros Hstep l. induction l as [|o l IH]; intros w w' HP.
  - cbn. by intros [= <-].
  - rewrite do_ops_cons. unfold mbind, M_bind.
    destruct (do_op dcheck o w) as [[[] w1]|] eqn:Ho; [|done].
    intros Hl. eapply IH; [|done]. by eapply Hstep.
Qed.

(** X3: after any run of the confined methods on a new coordinator, the
    poller exists exactly when the last playout setting given to the voice
    engine was "disabled" (and does not exist when none was given), and
    the pollers created are the pollers destroyed, plus the one that
    exists. *)
Theorem X3_poller_follows_playout dcheck l w :
  do_ops dcheck l AudioState_new = Done (tt, w) →
  null_audio_poller_ w =
    (if last_playout (calls w) is Some enabled then negb enabled else false) ∧
  pollers_created (calls w) =
    pollers_destroyed (calls w) + (if null_audio_poller_ w then 1 else 0).
Proof.
  apply (do_ops_inv dcheck (λ w,
    null_audio_poller_ w =
      (if last_playout (calls w) is Some enabled then negb enabled
       else false) ∧
    pollers_created (calls w) =
      pollers_destroyed (calls w) + (if null_audio_poller_ w then 1 else 0)));
    [|done].
  clear. intros o w w' [Hlast Hbal] Ho.
  apply do_op_run in Ho as (_ & _ & Ho).
  unfold last_playout, pollers_created, pollers_destroyed in *.
  destruct o as [stream rate ch | stream | enabled | enabled | enable].
  - destruct Ho as [-> ->].
    rewrite omap_app, !List.filter_app, !length_app. unfold pushed.
    destruct (aggregate _) as [[? ?] ?]. cbn. rewrite app_nil_r.
    split; [done | lia].
  - destruct Ho as [-> ->].
    rewrite omap_app, !List.filter_app, !length_app. unfold pushed.
    destruct (aggregate _) as [[? ?] ?]. cbn. rewrite app_nil_r.
    split; [done | lia].
  - destruct Ho as (_ & -> & ->).
    rewrite omap_app, !List.filter_app, !length_app.
    destruct enabled, (null_audio_poller_ w) eqn:Hp; cbn;
      rewrite ?app_nil_r, ?last_snoc; cbn.
    + split; [done | lia].
    + rewrite <- Hlast. split; [done | lia].
    + rewrite <- Hlast. split; [done | lia].
    + split; [done | lia].
  - destruct Ho as (_ & -> & ->).
    rewrite omap_app, !List.filter_app, !length_app. cbn.
    rewrite app_nil_r. split; [done | lia].
  - destruct Ho as (_ & -> & ->).
    rewrite omap_app, !List.filter_app, !length_app. cbn.
    rewrite app_nil_r. split; [done | lia].
Qed.

(** One run of X3: playout disabled, a stream added, playout enabled and
    disabled again. *)
Lemma X3_witness :
  ∃ w, do_ops true [DoSetPlayout false; DoAddSendingStream 7 16000 1;
                    DoSetPlayout true; DoSetPlayout false]
         AudioState_new = Done (tt, w) ∧
       null_audio_poller_ w = true ∧
       pollers_created (calls w) = 2 ∧ pollers_destroyed (calls w) = 1.
Proof.
  eexists. split; [reflexivity|].
  pose proof (X3_poller_follows_playout true
    [DoSetPlayout false; DoAddSendingStream 7 16000 1;
     DoSetPlayout true; DoSetPlayout false] _ eq_refl) as [H1 H2].
  split; [exact H1|]. split; reflexivity.
Defined.

Lemma last_update_pushed l m : last_update (l ++ [pushed m]) = Some (pushed m).
Proof.
  unfold last_update, pushed. rewrite List.filter_app.
  destruct (aggregate m) as [[ids r] c]. cbn. apply last_snoc.
Qed.

(** X4: after any run of the confined methods on a new coordinator, the
    transport holds the aggregate of the stream map as it is: the last
    update it was handed is the aggregate of the current map, and if it
    was handed none the map is empty. *)
Theorem X4_transport_in_step_with_streams dcheck l w :
  do_ops dcheck l AudioState_new = Done (tt, w) →
  match last_update (calls w) with
  | Some update => update = pushed (sending_streams_ w)
  | None => sending_streams_ w = ∅
  end.
Proof.
  apply (do_ops_inv dcheck (λ w,
    match last_update (calls w) with
    | Some update => update = pushed (sending_streams_ w)
    | None => sending_streams_ w = ∅
    end)); [|done].
  clear. intros o w w' Hinv Ho.
  apply do_op_run in Ho as (_ & _ & Ho).
  destruct o as [stream rate ch | stream | enabled | enabled | enable].
  - destruct Ho as [_ ->]. by rewrite last_update_pushed.
  - destruct Ho as [_ ->]. by rewrite last_update_pushed.
  - destruct Ho as (-> & _ & ->). unfold last_update in *.
    rewrite List.filter_app.
    by destruct (Bool.eqb _ _), enabled; cbn; rewrite app_nil_r.
  - destruct Ho as (-> & _ & ->). unfold last_update in *.
    rewrite List.filter_app. cbn. by rewrite app_nil_r.
  - destruct Ho as (-> & _ & ->). unfold last_update in *.
    rewrite List.filter_app. cbn. by rewrite app_nil_r.
Qed.

(** One run of X4: two streams added, playout disabled, one stream
    removed. *)
Lemma X4_witness :
  ∃ w, do_ops true [DoAddSendingStream 7 16000 1;
                    DoAddSendingStream 9 48000 2; DoSetPlayout false;
                    DoRemoveSendingStream 9]
         AudioState_new = Done (tt, w) ∧
       last_update (calls w) = Some (pushed (sending_streams_ w)).
Proof.
  eexists. split; [reflexivity|].
  pose proof (X4_transport_in_step_with_streams true
    [DoAddSendingStream 7 16000 1; DoAddSendingStream 9 48000 2;
     DoSetPlayout false; DoRemoveSendingStream 9] _ eq_refl) as H.
  destruct (last_update _) as [update|] eqn:Hlast.
  - by rewrite H.
  - exfalso. revert Hlast. vm_compute. discriminate.
Defined.

(** X5: [SetRecording] keeps no state of its own: every call is passed on
    to the voice engine, in order, also one that repeats the setting
    before it, and nothing else is called or changed. *)
Theorem X5_SetRecording_passes_every_call dcheck settings w :
  ∃ w', do_ops dcheck (DoSetRecording <$> settings) w = Done (tt, w') ∧
        calls w' = calls w ++ (VoeBase_SetRecording <$> settings) ∧
        sending_streams_ w' = sending_streams_ w ∧
        null_audio_poller_ w' = null_audio_poller_ w ∧
        ref_count_ w' = ref_count_ w ∧ deleted w' = deleted w.
Proof.
  revert w. induction settings as [|enabled settings IH]; intros w.
  - exists w. cbn. by rewrite app_nil_r.
  - destruct (IH (record_call (VoeBase_SetRecording enabled) w))
      as (w' & Hrun & Hcalls & ? & ? & ? & ?).
    exists w'. cbn [fmap list_fmap]. rewrite do_ops_cons.
    erewrite seq_Done by (cbn; unfold SetRecording; by run_M).
    split; [done|]. rewrite Hcalls. cbn. by rewrite <- app_assoc.
Qed.

(** X6: the confined methods never change the reference count and never
    delete the object, and they only add to the calls made so far. *)
Theorem X6_confined_methods_keep_reference_count dcheck l w w' :
  do_ops dcheck l w = Done (tt, w') →
  ref_count_ w' = ref_count_ w ∧ deleted w' = deleted w ∧
  calls w `prefix_of` calls w'.
Proof.
  intros Hrun. refine (do_ops_inv dcheck (λ w',
    ref_count_ w' = ref_count_ w ∧ deleted w' = deleted w ∧
    calls w `prefix_of` calls w') _ l w w' _ Hrun); [|done].
  clear. intros o w1 w2 (Hrc & Hdel & Hpre) Ho.
  apply do_op_run in Ho as (-> & -> & Ho).
  split; [done|]. split; [done|].
  etrans; [exact Hpre|].
  destruct o; destruct Ho as (? & ? & Hc) || destruct Ho as (? & Hc);
    rewrite Hc; by apply prefix_app_r.
Qed.

(** One run of X6: a stream is added and removed on a coordinator that
    has two references. *)
Lemma X6_witness :
  ∃ w', do_ops true [DoAddSendingStream 7 16000 1; DoRemoveSendingStream 7]
          (set_ref_count 2 AudioState_new) = Done (tt, w') ∧
        ref_count_ w' = 2%Z ∧ deleted w' = false.
Proof.
  eexists. split; [reflexivity|].
  pose proof (X6_confined_methods_keep_reference_count true
    [DoAddSendingStream 7 16000 1; DoRemoveSendingStream 7]
    (set_ref_count 2 AudioState_new) _ eq_refl) as (H1 & H2 & _).
  split; [exact H1 | exact H2].
Defined.

(** *** The stream map and its aggregate *)

Lemma pushed_aggregate m ids r c :
  pushed m = Transport_UpdateSendingStreams ids r c ↔ aggregate m = (ids, r, c).
Proof.
  unfold pushed. destruct (aggregate m) as [[ids' r'] c'].
  split; by intros [= -> -> ->].
Qed.

(** X7: adding a stream that is not in the map and removing it again
    leaves the map as it was, and the transport ends with the aggregate it
    would be handed for the map before the two calls. *)
Theorem X7_add_then_remove_restores dcheck w stream rate ch :
  sending_streams_ w !! stream = None →
  ∃ w', (AddSendingStream stream rate ch;;
         RemoveSendingStream dcheck stream) w = Done (tt, w') ∧
        sending_streams_ w' = sending_streams_ w ∧
        last (calls w') = Some (pushed (sending_streams_ w)).
Proof.
  intros Hfresh. eexists.
  erewrite seq_Done by apply AddSendingStream_run.
  rewrite RemoveSendingStream_run. cbn.
  rewrite lookup_insert_eq, bool_decide_eq_true_2, andb_false_r by eauto.
  rewrite delete_insert_id by done.
  split; [done|]. cbn. split; [done|]. apply last_snoc.
Qed.

(** One run of X7: on a new coordinator. *)
Lemma X7_witness :
  ∃ w', (AddSendingStream 7 16000 1;; RemoveSendingStream true 7)
          AudioState_new = Done (tt, w') ∧
        sending_streams_ w' = ∅ ∧
        last (calls w') = Some (pushed ∅).
Proof.
  exact (X7_add_then_remove_restores true AudioState_new 7%N 16000%Z 1%N
           eq_refl).
Defined.

(** X8: [AddSendingStream] for a stream that is in the map overwrites its
    entry: after two calls for the same stream the map is what the second
    call alone would leave, with one entry for the stream, holding the
    second rate and channel count. *)
Theorem X8_add_overwrites w stream rate1 ch1 rate2 ch2 :
  ∃ w1 w2,
    (AddSendingStream stream rate1 ch1;; AddSendingStream stream rate2 ch2) w
      = Done (tt, w2) ∧
    AddSendingStream stream rate2 ch2 w = Done (tt, w1) ∧
    sending_streams_ w2 = sending_streams_ w1 ∧
    sending_streams_ w2 !! stream =
      Some {| sample_rate_hz := rate2; num_channels := ch2 |} ∧
    size (sending_streams_ w2) =
      (if sending_streams_ w !! stream is Some _ then size (sending_streams_ w)
       else S (size (sending_streams_ w))) ∧
    last (calls w2) = last (calls w1).
Proof.
  eexists _, _.
  erewrite seq_Done by apply AddSendingStream_run.
  rewrite !AddSendingStream_run. cbn.
  split; [done|]. split; [done|]. cbn. rewrite insert_insert_eq.
  split; [done|]. split; [apply lookup_insert_eq|]. split.
  - rewrite map_size_insert. by destruct (sending_streams_ w !! stream).
  - by rewrite !last_snoc.
Qed.

Lemma aggregate_insert (m : gmap N StreamProperties) stream p ids r c :
  m !! stream = None → aggregate m = (ids, r, c) →
  ∃ ids', aggregate (<[stream := p]> m) =
            (ids', Z.max r (sample_rate_hz p), N.max c (num_channels p)) ∧
          ids' ≡ₚ stream :: ids.
Proof.
  intros Hfresh Hm.
  destruct (aggregate (<[stream := p]> m)) as [[ids' r'] c'] eqn:Hm'.
  apply aggregate_spec in Hm as (-> & _ & _ & Hr1 & Hr2 & Hr3 & Hc1 & Hc2 & Hc3).
  apply aggregate_spec in Hm'
    as (-> & _ & _ & Hr1' & Hr2' & Hr3' & Hc1' & Hc2' & Hc3').
  exists ((map_to_list (<[stream := p]> m)).*1).
  split; [|by rewrite map_to_list_insert].
  assert (Hin : ∀ k q, m !! k = Some q → <[stream := p]> m !! k = Some q).
  { intros k q Hk. rewrite lookup_insert_ne; [done|]. congruence. }
  f_equal; [f_equal|].
  - apply Z.le_antisymm.
    + destruct Hr3' as [-> | (k & q & Hk & ->)]; [lia|].
      apply lookup_insert_Some in Hk as [[_ <-] | [_ Hk]]; [lia|].
      specialize (Hr2 _ _ Hk). lia.
    + pose proof (Hr2' stream p (lookup_insert_eq _ _ _)).
      destruct Hr3 as [-> | (k & q & Hk & ->)]; [lia|].
      specialize (Hr2' _ _ (Hin _ _ Hk)). lia.
  - apply N.le_antisymm.
    + destruct Hc3' as [-> | (k & q & Hk & ->)]; [lia|].
      apply lookup_insert_Some in Hk as [[_ <-] | [_ Hk]]; [lia|].
      specialize (Hc2 _ _ Hk). lia.
    + pose proof (Hc2' stream p (lookup_insert_eq _ _ _)).
      destruct Hc3 as [-> | (k & q & Hk & ->)]; [lia|].
      specialize (Hc2' _ _ (Hin _ _ Hk)). lia.
Qed.

(** X9: adding a stream that is not in the map raises the aggregate to the
    larger of the aggregate before and the stream's own sample rate and
    channel count, each on its own, and adds the stream to the list the
    transport is handed. *)
Theorem X9_add_raises_aggregate w stream rate ch ids r c :
  sending_streams_ w !! stream = None →
  pushed (sending_streams_ w) = Transport_UpdateSendingStreams ids r c →
  ∃ w' ids', AddSendingStream stream rate ch w = Done (tt, w') ∧
    last (calls w') =
      Some (Transport_UpdateSendingStreams ids' (Z.max r rate) (N.max c ch)) ∧
    ids' ≡ₚ stream :: ids.
Proof.
  intros Hfresh Hagg%pushed_aggregate.
  destruct (aggregate_insert _ stream
              {| sample_rate_hz := rate; num_channels := ch |} _ _ _
              Hfresh Hagg) as (ids' & Hagg' & Hperm).
  eexists _, ids'. rewrite AddSendingStream_run. cbn.
  split; [done|]. cbn. split; [|done].
  rewrite last_snoc. f_equal. by apply pushed_aggregate.
Qed.

(** One run of X9: a stereo stream at 48000 Hz joins a coordinator that
    holds a mono stream at 16000 Hz. *)
Lemma X9_witness :
  ∃ w' ids', AddSendingStream 9 48000 2
      (set_sending_streams
         {[7%N := {| sample_rate_hz := 16000; num_channels := 1 |}]}
         AudioState_new) = Done (tt, w') ∧
    last (calls w') =
      Some (Transport_UpdateSendingStreams ids' (Z.max 16000 48000)
                                           (N.max 1 2)) ∧
    ids' ≡ₚ [9%N; 7%N].
Proof.
  exact (X9_add_raises_aggregate
           (set_sending_streams
              {[7%N := {| sample_rate_hz := 16000; num_channels := 1 |}]}
              AudioState_new)
           9%N 48000%Z 2%N [7%N] 16000%Z 1%N eq_refl
           (pushed_singleton 7%N
              {| sample_rate_hz := 16000; num_channels := 1 |})).
Defined.

(** X10: the aggregate never grows when streams go: for a map that holds
    part of the entries of another, the sample rate and the channel count
    handed to the transport are at most those for the other, and the
    streams listed are among those listed for the other.  So a remove
    never raises the aggregate. *)
Theorem X10_aggregate_monotone (m1 m2 : gmap N StreamProperties)
    ids1 r1 c1 ids2 r2 c2 :
  m1 ⊆ m2 →
  pushed m1 = Transport_UpdateSendingStreams ids1 r1 c1 →
  pushed m2 = Transport_UpdateSendingStreams ids2 r2 c2 →
  (r1 ≤ r2)%Z ∧ (c1 ≤ c2)%N ∧ ids1 ⊆ ids2.
Proof.
  intros Hsub H1%pushed_aggregate H2%pushed_aggregate.
  apply aggregate_spec in H1 as (_ & _ & Hi1 & _ & _ & Hr1 & _ & _ & Hc1).
  apply aggregate_spec in H2 as (_ & _ & Hi2 & Hr2 & Hr2' & _ & Hc2 & Hc2' & _).
  split; [|split].
  - destruct Hr1 as [-> | (k & p & Hk & ->)]; [done|].
    apply (Hr2' k). by eapply lookup_weaken.
  - destruct Hc1 as [-> | (k & p & Hk & ->)]; [done|].
    apply (Hc2' k). by eapply lookup_weaken.
  - intros k [p Hk]%Hi1. apply Hi2. exists p. by eapply lookup_weaken.
Qed.

(** One use of X10: a map of two streams, and what is left of it when
    one is removed. *)
Lemma X10_witness :
  ∃ ids2,
    pushed (<[9%N := {| sample_rate_hz := 48000; num_channels := 2 |}]>
              {[7%N := {| sample_rate_hz := 16000; num_channels := 1 |}]})
      = Transport_UpdateSendingStreams ids2 48000 2 ∧
    (16000 ≤ 48000)%Z ∧ (1 ≤ 2)%N ∧ [7%N] ⊆ ids2.
Proof.
  eexists. split; [vm_compute; reflexivity|].
  apply (X10_aggregate_monotone
           (delete 9%N
              (<[9%N := {| sample_rate_hz := 48000; num_channels := 2 |}]>
                 {[7%N := {| sample_rate_hz := 16000; num_channels := 1 |}]}))
           (<[9%N := {| sample_rate_hz := 48000; num_channels := 2 |}]>
              {[7%N := {| sample_rate_hz := 16000; num_channels := 1 |}]})).
  - apply delete_subseteq.
  - vm_compute. reflexivity.
  - vm_compute. reflexivity.
Defined.

(** X11: the list of streams the transport is handed has one entry for
    each entry of the map: it is as long as the map is large. *)
Theorem X11_one_id_per_stream (m : gmap N StreamProperties) ids r c :
  pushed m = Transport_UpdateSendingStreams ids r c →
  length ids = size m ∧ NoDup ids.
Proof.
  intros H%pushed_aggregate.
  apply aggregate_spec in H as (-> & Hnd & _).
  split; [|done]. by rewrite length_fmap, length_map_to_list.
Qed.

(** One use of X11: the map with one stream. *)
Lemma X11_witness :
  length [7%N] =
    size ({[7%N := {| sample_rate_hz := 16000; num_channels := 1 |}]}
            : gmap N StreamProperties) ∧ NoDup [7%N].
Proof.
  exact (X11_one_id_per_stream _ _ _ _
           (pushed_singleton 7%N
              {| sample_rate_hz := 16000; num_channels := 1 |})).
Defined.

(** *** References *)

Lemma AddRef_run w :
  AddRef w = Done (tt, set_ref_count (wrap_int (ref_count_ w + 1)) w).
Proof. reflexivity. Qed.

Lemma set_ref_count_same w : set_ref_count (ref_count_ w) w = w.
Proof. by destruct w. Qed.

(** X12: a reference taken and given back leaves a coordinator that others
    hold as it was: [AddRef] followed by [Release], on a count of at least
    1 and below [INT_MAX], answers [kOtherRefsRemained] and changes
    nothing. *)
Theorem X12_AddRef_then_Release dcheck w :
  (1 ≤ ref_count_ w < INT_MAX)%Z →
  (AddRef;; Release dcheck) w = Done (kOtherRefsRemained, w).
Proof.
  intros Hrc. rewrite (seq_Done _ _ _ _ _ (AddRef_run w)).
  rewrite Release_run. cbn.
  rewrite (wrap_int_id (ref_count_ w + 1))
    by (unfold is_int, INT_MIN, INT_MAX in *; lia).
  replace (ref_count_ w + 1 - 1)%Z with (ref_count_ w) by lia.
  rewrite wrap_int_id by (unfold is_int, INT_MIN, INT_MAX in *; lia).
  destruct (Z.eqb_spec (ref_count_ w) 0); [lia|].
  destruct w. reflexivity.
Qed.

(** One run of X12: on a coordinator with one reference. *)
Lemma X12_witness :
  (AddRef;; Release true) (set_ref_count 1 AudioState_new)
    = Done (kOtherRefsRemained, set_ref_count 1 AudioState_new).
Proof.
  apply (X12_AddRef_then_Release true (set_ref_count 1 AudioState_new)).
  unfold INT_MAX. cbn. lia.
Defined.

Lemma AddRefs_run n : ∀ w,
  (0 ≤ ref_count_ w)%Z → (ref_count_ w + Z.of_nat n ≤ INT_MAX)%Z →
  AddRefs n w = Done (tt, set_ref_count (ref_count_ w + Z.of_nat n) w).
Proof.
  induction n as [|n IH]; intros w H0 Hn.
  - cbn. rewrite Z.add_0_r. by rewrite set_ref_count_same.
  - cbn [AddRefs]. rewrite (seq_Done _ _ _ _ _ (AddRef_run w)).
    rewrite wrap_int_id by (unfold is_int, INT_MIN, INT_MAX in *; lia).
    rewrite IH by (cbn; lia). unfold set_ref_count. cbn. do 3 f_equal. lia.
Qed.

Lemma Releases_to_zero dcheck n : ∀ w,
  ref_count_ w = Z.of_nat (S n) → (Z.of_nat (S n) ≤ INT_MAX)%Z →
  dcheck = false ∨ sending_streams_ w = ∅ →
  ∃ w', Releases dcheck (S n) w =
          Done (replicate n kOtherRefsRemained ++ [kDroppedLastRef], w') ∧
        deleted w' = true ∧ ref_count_ w' = 0%Z ∧
        sending_streams_ w' = sending_streams_ w.
Proof.
  induction n as [|n IH]; intros w Hrc Hmax Hok.
  - cbn [Releases]. unfold mbind, M_bind. rewrite Release_run. cbn.
    rewrite Hrc. cbn.
    replace (dcheck && negb (bool_decide (sending_streams_ w = ∅)))
      with false.
    + eexists. split; [done|]. by destruct (null_audio_poller_ w).
    + destruct Hok as [-> | ->]; [done|].
      rewrite bool_decide_eq_true_2 by done. by rewrite andb_false_r.
  - change (Releases dcheck (S (S n)) w)
      with ((status ← Release dcheck;
             rest ← Releases dcheck (S n);
             mret (status :: rest)) w).
    unfold mbind at 1, M_bind at 1. rewrite Release_run. cbn zeta.
    rewrite Hrc.
    replace (Z.of_nat (S (S n)) - 1)%Z with (Z.of_nat (S n)) by lia.
    rewrite wrap_int_id by (unfold is_int, INT_MIN, INT_MAX in *; lia).
    destruct (Z.eqb_spec (Z.of_nat (S n)) 0); [lia|].
    destruct (IH (set_ref_count (Z.of_nat (S n)) w))
      as (w' & Hrun & Hdel & Hzero & Hstreams); [done | lia | done |].
    exists w'. unfold mbind, M_bind. rewrite Hrun. by cbn.
Qed.

(** X13: the references taken on a new coordinator and given back, one
    [Release] for each [AddRef]: every [Release] but the last answers
    [kOtherRefsRemained], and the last answers [kDroppedLastRef] and
    deletes the object.  (The count stays within [int]; the destructor's
    assertion that no stream is left passes or is compiled out.) *)
Theorem X13_balanced_references_delete_at_the_last dcheck n w :
  ref_count_ w = 0%Z → (Z.of_nat (S n) ≤ INT_MAX)%Z →
  dcheck = false ∨ sending_streams_ w = ∅ →
  ∃ w', (AddRefs (S n);; Releases dcheck (S n)) w =
          Done (replicate n kOtherRefsRemained ++ [kDroppedLastRef], w') ∧
        deleted w' = true ∧ ref_count_ w' = 0%Z.
Proof.
  intros Hrc Hmax Hok.
  erewrite seq_Done by (apply AddRefs_run; lia).
  destruct (Releases_to_zero dcheck n
              (set_ref_count (ref_count_ w + Z.of_nat (S n)) w))
    as (w' & Hrun & Hdel & Hzero & _); [cbn; lia | done | done |].
  by exists w'.
Qed.

(** One run of X13: three references on a new coordinator. *)
Lemma X13_witness :
  ∃ w', (AddRefs 3;; Releases true 3) AudioState_new =
          Done ([kOtherRefsRemained; kOtherRefsRemained; kDroppedLastRef], w')
        ∧ deleted w' = true ∧ ref_count_ w' = 0%Z.
Proof.
  apply (X13_balanced_references_delete_at_the_last true 2 AudioState_new).
  - reflexivity.
  - vm_compute. discriminate.
  - by right.
Defined.

(** X14: the [Release] that drops the last reference runs the destructor,
    which asserts that no stream is left: with assertions compiled in, it
    stops at [sending_streams_.empty()] when the map still has an entry
    and deletes the object when the map is empty; with assertions
    compiled out it deletes the object either way. *)
Theorem X14_destructor_asserts_no_streams w :
  wrap_int (ref_count_ w - 1) = 0%Z →
  (sending_streams_ w ≠ ∅ →
   Release true w = CheckFailed "sending_streams_.empty()") ∧
  (sending_streams_ w = ∅ →
   ∃ w', Release true w = Done (kDroppedLastRef, w') ∧ deleted w' = true) ∧
  (∃ w', Release false w = Done (kDroppedLastRef, w') ∧ deleted w' = true).
Proof.
  intros Hz. rewrite !Release_run. cbn. rewrite Hz. cbn.
  split; [|split].
  - intros Hne. by rewrite bool_decide_eq_false_2.
  - intros He. rewrite bool_decide_eq_true_2 by done. cbn.
    eexists. split; [done|]. by destruct (null_audio_poller_ w).
  - eexists. split; [done|]. by destruct (null_audio_poller_ w).
Qed.

(** One run of X14: the last reference is released while a stream is
    still registered. *)
Lemma X14_witness :
  Release true
    (set_ref_count 1
       (set_sending_streams
          {[7%N := {| sample_rate_hz := 16000; num_channels := 1 |}]}
          AudioState_new))
    = CheckFailed "sending_streams_.empty()".
Proof.
  apply (proj1 (X14_destructor_asserts_no_streams
    (set_ref_count 1
       (set_sending_streams
          {[7%N := {| sample_rate_hz := 16000; num_channels := 1 |}]}
          AudioState_new)) eq_refl)).
  apply insert_non_empty.
Defined.

(** *** The input level *)

(** X15: [GetAudioInputStats] changes nothing and answers with the four
    values it reads.  With assertions compiled in it answers exactly when
    the level is between 0 and 32767 and the quantized level between 0 and
    9, and stops at an assertion otherwise; with assertions compiled out
    it always answers. *)
Theorem X15_GetAudioInputStats_in_range dcheck double
    (level : AudioLevel double) w :
  let stats := {| audio_level := LevelFullRange _ level;
                  quantized_audio_level := Level _ level;
                  total_energy := TotalEnergy _ level;
                  total_duration := TotalDuration _ level |} in
  let in_range := (0 ≤ LevelFullRange _ level ≤ 32767)%Z ∧
                  (0 ≤ Level _ level ≤ 9)%Z in
  (dcheck = false ∨ in_range →
   GetAudioInputStats dcheck double level w = Done (stats, w)) ∧
  (∀ r, GetAudioInputStats dcheck double level w = Done r →
        r = (stats, w) ∧ (dcheck = true → in_range)) ∧
  (dcheck = true → ¬ in_range →
   ∃ what, GetAudioInputStats dcheck double level w = CheckFailed what).
Proof.
  intros stats in_range. subst stats in_range.
  unfold GetAudioInputStats. run_M.
  destruct dcheck; cbn.
  - destruct (Z.leb_spec 0 (LevelFullRange _ level)); cbn;
      [|split; [intros [|]; [done|lia] | split; [done | by eexists]]].
    destruct (Z.geb_spec 32767 (LevelFullRange _ level)); cbn;
      [|split; [intros [|]; [done|lia] | split; [done | by eexists]]].
    destruct (Z.leb_spec 0 (Level _ level)); cbn;
      [|split; [intros [|]; [done|lia] | split; [done | by eexists]]].
    destruct (Z.geb_spec 9 (Level _ level)); cbn;
      [|split; [intros [|]; [done|lia] | split; [done | by eexists]]].
    split; [done|]. split.
    + intros r [= <-]. split; [done|]. intros _. lia.
    + intros _ Hout. exfalso. apply Hout. lia.
  - split; [done|]. split; [|done]. by intros r [= <-].
Qed.

(** One run of X15: a level in range, with assertions compiled in. *)
Lemma X15_witness :
  GetAudioInputStats true Z
    {| LevelFullRange := 1200; Level := 3;
       TotalEnergy := 5%Z; TotalDuration := 7%Z |} AudioState_new
  = Done ({| audio_level := 1200; quantized_audio_level := 3;
             total_energy := 5%Z; total_duration := 7%Z |}, AudioState_new).
Proof.
  apply (proj1 (X15_GetAudioInputStats_in_range true Z
    {| LevelFullRange := 1200; Level := 3;
       TotalEnergy := 5%Z; TotalDuration := 7%Z |} AudioState_new)).
  right. vm_compute. repeat split; discriminate.
Defined.

End AudioStateFacts.

(** ** The frame-cadence adapter *)

Module FrameCadenceAdapterFacts.
Import FrameCadenceAdapter.

#[local] Arguments wrap_int : simpl never.
#[local] Arguments frame_rate_constraint_umas : simpl never.
#[local] Arguments OnFrames : simpl never.
#[local] Arguments RunTasks : simpl never.

Ltac setters :=
  unfold set_posting, set_queue, set_alive, record_callback, record_samples,
    on_self, set_frames_scheduled, set_has_reported, set_zero_hertz,
    set_source_constraints, set_callback;
  cbn [self alive queue posting callback_calls histograms callback_
       source_constraints_ zero_hertz_and_uma_reporting_enabled_
       has_reported_screenshare_frame_rate_umas_
       frames_scheduled_for_processing_].

(** *** Posting frames *)

Lemma OnFrames_cons tf frames w :
  OnFrames (tf :: frames) w = OnFrames frames (OnFrame tf.1 tf.2 w).
Proof. reflexivity. Qed.

Lemma RunTasks_S n w :
  RunTasks (S n) w = (w ← RunNextTask w; RunTasks n w).
Proof. reflexivity. Qed.

Lemma OnFrames_run frames : ∀ cb sc zh hr n al q cc hi,
  OnFrames frames
    {| self := {| callback_ := cb; source_constraints_ := sc;
                  zero_hertz_and_uma_reporting_enabled_ := zh;
                  has_reported_screenshare_frame_rate_umas_ := hr;
                  frames_scheduled_for_processing_ := n |};
       alive := al; queue := q; posting := None;
       callback_calls := cc; histograms := hi |} =
    {| self := {| callback_ := cb; source_constraints_ := sc;
                  zero_hertz_and_uma_reporting_enabled_ := zh;
                  has_reported_screenshare_frame_rate_umas_ := hr;
                  frames_scheduled_for_processing_ :=
                    Nat.iter (length frames) (λ c, wrap_int (c + 1)) n |};
       alive := al; queue := q ++ OnFrameTasks frames; posting := None;
       callback_calls := cc; histograms := hi |}.
Proof.
  induction frames as [|[t f] frames IH]; intros cb sc zh hr n al q cc hi.
  - cbn. by rewrite app_nil_r.
  - rewrite OnFrames_cons. cbn [length fst snd]. rewrite Nat.iter_succ_r.
    unfold OnFrame, OnFrame_PostTask, OnFrame_fetch_add. setters.
    rewrite IH. unfold OnFrameTasks. cbn -[wrap_int].
    by rewrite <- app_assoc.
Qed.

Lemma count_up k : ∀ n,
  (0 ≤ n)%Z → (n + Z.of_nat k ≤ INT_MAX)%Z →
  Nat.iter k (λ c, wrap_int (c + 1)) n = (n + Z.of_nat k)%Z.
Proof.
  induction k as [|k IH]; intros n Hn Hk.
  - cbn. lia.
  - rewrite Nat.iter_succ_r. rewrite wrap_int_id.
    + rewrite IH; lia.
    + unfold is_int, INT_MIN, INT_MAX in *. lia.
Qed.

(** *** Running the tasks of frames *)

Lemma RunTasks_OnFrameTasks frames : ∀ cb sc zh hr n q po cc hi,
  RunTasks (length frames)
    {| self := {| callback_ := Some cb; source_constraints_ := sc;
                  zero_hertz_and_uma_reporting_enabled_ := zh;
                  has_reported_screenshare_frame_rate_umas_ := hr;
                  frames_scheduled_for_processing_ := n |};
       alive := true; queue := OnFrameTasks frames ++ q; posting := po;
       callback_calls := cc; histograms := hi |} =
  Some
    {| self := {| callback_ := Some cb; source_constraints_ := sc;
                  zero_hertz_and_uma_reporting_enabled_ := zh;
                  has_reported_screenshare_frame_rate_umas_ :=
                    if frames is [] then hr else true;
                  frames_scheduled_for_processing_ :=
                    Nat.iter (length frames) (λ c, wrap_int (c - 1)) n |};
       alive := true; queue := q; posting := po;
       callback_calls := cc ++ deliveries cb n frames;
       histograms :=
         hi ++ if frames is [] then []
               else if hr then []
               else if zh then frame_rate_constraint_umas sc else [] |}.
Proof.
  induction frames as [|[t f] frames IH]; intros cb sc zh hr n q po cc hi.
  - cbn. by rewrite !app_nil_r.
  - cbn [length]. rewrite RunTasks_S, Nat.iter_succ_r.
    change (OnFrameTasks ((t, f) :: frames))
      with (OnFrameTask t f :: OnFrameTasks frames).
    unfold RunNextTask. cbn.
    unfold MaybeReportFrameRateConstraintUmas.
    destruct hr; cbn; setters.
    + rewrite IH. rewrite <- app_assoc. cbn.
      by destruct frames; rewrite ?app_nil_r.
    + destruct zh; cbn; setters; rewrite IH; rewrite <- !app_assoc; cbn;
        by destruct frames; rewrite ?app_nil_r.
Qed.

Lemma count_down k : ∀ n,
  (Z.of_nat k ≤ n ≤ INT_MAX)%Z →
  Nat.iter k (λ c, wrap_int (c - 1)) n = (n - Z.of_nat k)%Z.
Proof.
  induction k as [|k IH]; intros n Hn.
  - cbn. lia.
  - rewrite Nat.iter_succ_r. rewrite wrap_int_id.
    + rewrite IH; lia.
    + unfold is_int, INT_MIN, INT_MAX in *. lia.
Qed.

(** With no more frames queued than the counter says, and the counter an
    [int], the task of the frame at index [k] finds the counter [k] below
    where the first found it. *)
Lemma deliveries_imap frames : ∀ cb n,
  (Z.of_nat (length frames) ≤ n ≤ INT_MAX)%Z →
  deliveries cb n frames =
    imap (λ k tf, Callback_OnFrame cb tf.1 (n - Z.of_nat k) tf.2) frames.
Proof.
  induction frames as [|[t f] frames IH]; intros cb n Hn; [done|].
  cbn [length] in Hn. cbn [deliveries]. rewrite imap_cons. f_equal.
  - cbn. f_equal. lia.
  - rewrite wrap_int_id by (unfold is_int, INT_MIN, INT_MAX in *; lia).
    rewrite IH by lia. apply imap_ext. intros k tf _. cbn. f_equal. lia.
Qed.

(** C2: [N] calls of [OnFrame] are made on an adapter with nothing in
    flight, and then the queue runs.  The task of the k-th frame hands the
    callback the count N-(k-1), the calls made less the deliveries done,
    which lies between 0 and N; before it runs the counter stands at that
    value, and after the last it is 0 again. *)
Theorem C2_pending_count_at_delivery w cb frames :
  alive w = true → callback_ (self w) = Some cb →
  queue w = [] → posting w = None →
  frames_scheduled_for_processing_ (self w) = 0%Z →
  (Z.of_nat (length frames) ≤ INT_MAX)%Z →
  let N := Z.of_nat (length frames) in
  let call k tf := Callback_OnFrame cb tf.1 (N - Z.of_nat k) tf.2 in
  (∃ w', DeliverFrames frames w = Some w' ∧
     callback_calls w' = callback_calls w ++ imap call frames ∧
     frames_scheduled_for_processing_ (self w') = 0%Z ∧ queue w' = []) ∧
  (∀ j, j ≤ length frames → ∃ wj,
     RunTasks j (OnFrames frames w) = Some wj ∧
     callback_calls wj = callback_calls w ++ imap call (take j frames) ∧
     frames_scheduled_for_processing_ (self wj) = (N - Z.of_nat j)%Z ∧
     queue wj = OnFrameTasks (drop j frames)) ∧
  (∀ k tf, 1 ≤ k → frames !! (k - 1) = Some tf →
     imap call frames !! (k - 1) =
       Some (Callback_OnFrame cb tf.1 (N - (Z.of_nat k - 1)) tf.2) ∧
     (0 ≤ N - (Z.of_nat k - 1) ≤ N)%Z).
Proof.
  intros Hal Hcb Hq Hpo Hn Hlen N call.
  destruct w as [[cb' sc zh hr n] al q po cc hi]. cbn in *. subst.
  assert (Hrun : ∀ j, j ≤ length frames →
    RunTasks j
      (OnFrames frames
         {| self := {| callback_ := Some cb; source_constraints_ := sc;
                       zero_hertz_and_uma_reporting_enabled_ := zh;
                       has_reported_screenshare_frame_rate_umas_ := hr;
                       frames_scheduled_for_processing_ := 0 |};
            alive := true; queue := []; posting := None;
            callback_calls := cc; histograms := hi |}) =
    Some
      {| self := {| callback_ := Some cb; source_constraints_ := sc;
                    zero_hertz_and_uma_reporting_enabled_ := zh;
                    has_reported_screenshare_frame_rate_umas_ :=
                      if take j frames is [] then hr else true;
                    frames_scheduled_for_processing_ := N - Z.of_nat j |};
         alive := true; queue := OnFrameTasks (drop j frames);
         posting := None;
         callback_calls := cc ++ imap call (take j frames);
         histograms :=
           hi ++ if take j frames is [] then []
                 else if hr then []
                 else if zh then frame_rate_constraint_umas sc else [] |}).
  { intros j Hj. rewrite OnFrames_run, count_up by lia. cbn [app].
    rewrite <- (take_drop j frames) at 2.
    unfold OnFrameTasks at 1. rewrite fmap_app.
    fold (OnFrameTasks (take j frames)) (OnFrameTasks (drop j frames)).
    rewrite <- (app_nil_r (OnFrameTasks (drop j frames))) at 1.
    rewrite <- (length_take_le frames j Hj) at 1.
    rewrite RunTasks_OnFrameTasks, app_nil_r.
    rewrite length_take_le by done.
    rewrite count_down by lia.
    rewrite deliveries_imap by (rewrite length_take_le by done; lia).
    reflexivity. }
  split; [|split].
  - eexists. unfold DeliverFrames. rewrite Hrun by done.
    rewrite take_ge, drop_ge by done.
    split; [done|]. cbn. split; [done|]. split; [unfold N; lia | done].
  - intros j Hj. eexists. rewrite Hrun by done. split; [done|]. by cbn.
  - intros k tf Hk Htf. rewrite list_lookup_imap, Htf. cbn.
    apply lookup_lt_Some in Htf. unfold call.
    split; [do 2 f_equal; lia | unfold N; lia].
Qed.

(** One run of C2: three frames on a new adapter with a callback. *)
Lemma C2_witness :
  ∃ w', DeliverFrames [(100%Z, 1%N); (200%Z, 2%N); (300%Z, 3%N)]
          (Initialize 5 FrameCadenceAdapterImpl_new) = Some w' ∧
        callback_calls w' =
          [Callback_OnFrame 5%N 100%Z 3%Z 1%N;
           Callback_OnFrame 5%N 200%Z 2%Z 2%N;
           Callback_OnFrame 5%N 300%Z 1%Z 3%N] ∧
        frames_scheduled_for_processing_ (self w') = 0%Z ∧ queue w' = [].
Proof.
  exact (proj1 (C2_pending_count_at_delivery
                  (Initialize 5 FrameCadenceAdapterImpl_new) 5%N
                  [(100%Z, 1%N); (200%Z, 2%N); (300%Z, 3%N)]
                  eq_refl eq_refl eq_refl eq_refl eq_refl
                  ltac:(vm_compute; discriminate))).
Defined.

(** The bound on the frames in flight matters: a counter at [INT_MAX]
    wraps with the next [OnFrame], whose task then hands the callback
    [INT_MIN]. *)
Example OnFrame_wraps_at_INT_MAX :
  ∃ w', DeliverFrames [(100%Z, 1%N)]
          (on_self (set_frames_scheduled INT_MAX)
             (Initialize 5 FrameCadenceAdapterImpl_new)) = Some w' ∧
        callback_calls w' = [Callback_OnFrame 5%N 100%Z INT_MIN 1%N].
Proof. eexists. split; reflexivity. Qed.

(** *** Frames posted and then delivered *)

Lemma DeliverFrames_run frames cb sc zh hr n cc hi :
  DeliverFrames frames
    {| self := {| callback_ := Some cb; source_constraints_ := sc;
                  zero_hertz_and_uma_reporting_enabled_ := zh;
                  has_reported_screenshare_frame_rate_umas_ := hr;
                  frames_scheduled_for_processing_ := n |};
       alive := true; queue := []; posting := None;
       callback_calls := cc; histograms := hi |} =
  Some
    {| self := {| callback_ := Some cb; source_constraints_ := sc;
                  zero_hertz_and_uma_reporting_enabled_ := zh;
                  has_reported_screenshare_frame_rate_umas_ :=
                    if frames is [] then hr else true;
                  frames_scheduled_for_processing_ :=
                    Nat.iter (length frames) (λ c, wrap_int (c - 1))
                      (Nat.iter (length frames) (λ c, wrap_int (c + 1)) n) |};
       alive := true; queue := []; posting := None;
       callback_calls :=
         cc ++ deliveries cb
                 (Nat.iter (length frames) (λ c, wrap_int (c + 1)) n) frames;
       histograms :=
         hi ++ if frames is [] then []
               else if hr then []
               else if zh then frame_rate_constraint_umas sc else [] |}.
Proof.
  unfold DeliverFrames. rewrite OnFrames_run. cbn [app].
  rewrite <- (app_nil_r (OnFrameTasks frames)).
  by rewrite RunTasks_OnFrameTasks.
Qed.

Lemma SetZeroHertzModeEnabled_same w :
  SetZeroHertzModeEnabled (zero_hertz_and_uma_reporting_enabled_ (self w)) w
    = w.
Proof. by destruct w as [[cb sc [] hr n] al q po cc hi]. Qed.

(** C3: once zero-hertz mode goes from disabled to enabled, delivering any
    frames, one or many, records the samples of the constraints once;
    enabling the enabled mode again and delivering more frames records
    nothing more; disabling and enabling it again and delivering frames
    records the samples once more.  [SetZeroHertzModeEnabled] with the
    value the mode already has changes nothing, so it does not clear the
    mark of having reported. *)
Theorem C3_telemetry_once_per_session :
  (∀ w cb frames1 frames2 frames3,
     alive w = true → callback_ (self w) = Some cb →
     queue w = [] → posting w = None →
     zero_hertz_and_uma_reporting_enabled_ (self w) = false →
     frames1 ≠ [] → frames3 ≠ [] →
     let umas := frame_rate_constraint_umas (source_constraints_ (self w)) in
     ∃ w1 w2 w3,
       DeliverFrames frames1 (SetZeroHertzModeEnabled true w) = Some w1 ∧
       histograms w1 = histograms w ++ umas ∧
       DeliverFrames frames2 (SetZeroHertzModeEnabled true w1) = Some w2 ∧
       histograms w2 = histograms w1 ∧
       DeliverFrames frames3
         (SetZeroHertzModeEnabled true (SetZeroHertzModeEnabled false w2))
         = Some w3 ∧
       histograms w3 = histograms w2 ++ umas) ∧
  (∀ w enabled,
     zero_hertz_and_uma_reporting_enabled_ (self w) = enabled →
     SetZeroHertzModeEnabled enabled w = w).
Proof.
  split.
  - intros w cb frames1 frames2 frames3 Hal Hcb Hq Hpo Hzh H1 H3 umas.
    destruct w as [[cb' sc zh hr n] al q po cc hi]. cbn in *. subst.
    unfold SetZeroHertzModeEnabled at 1. cbn. setters.
    rewrite DeliverFrames_run. eexists. eexists. eexists.
    split; [done|]. cbn. split; [by destruct frames1|].
    unfold SetZeroHertzModeEnabled at 1. cbn. setters.
    rewrite DeliverFrames_run. split; [done|]. cbn.
    split; [destruct frames1; [done|]; destruct frames2; by rewrite app_nil_r|].
    unfold SetZeroHertzModeEnabled. cbn. setters.
    rewrite DeliverFrames_run. split; [done|]. cbn.
    by destruct frames3.
  - intros w enabled <-. apply SetZeroHertzModeEnabled_same.
Qed.

(** One run of C3: sessions of two, one and three frames, with the
    constraints (10, 30) in place. *)
Lemma C3_witness :
  let w := on_self (set_source_constraints
                      (Some {| min_fps := Some 10%Z; max_fps := Some 30%Z |}))
             (Initialize 5 FrameCadenceAdapterImpl_new) in
  let umas := frame_rate_constraint_umas (source_constraints_ (self w)) in
  ∃ w1 w2 w3,
    DeliverFrames [(1%Z, 1%N); (2%Z, 2%N)] (SetZeroHertzModeEnabled true w)
      = Some w1 ∧
    histograms w1 = histograms w ++ umas ∧
    DeliverFrames [(3%Z, 3%N)] (SetZeroHertzModeEnabled true w1) = Some w2 ∧
    histograms w2 = histograms w1 ∧
    DeliverFrames [(4%Z, 4%N); (5%Z, 5%N); (6%Z, 6%N)]
      (SetZeroHertzModeEnabled true (SetZeroHertzModeEnabled false w2))
      = Some w3 ∧
    histograms w3 = histograms w2 ++ umas.
Proof.
  exact (proj1 C3_telemetry_once_per_session
           (on_self (set_source_constraints
                       (Some {| min_fps := Some 10%Z; max_fps := Some 30%Z |}))
              (Initialize 5 FrameCadenceAdapterImpl_new))
           5%N [(1%Z, 1%N); (2%Z, 2%N)] [(3%Z, 3%N)]
           [(4%Z, 4%N); (5%Z, 5%N); (6%Z, 6%N)]
           eq_refl eq_refl eq_refl eq_refl eq_refl
           ltac:(discriminate) ltac:(discriminate)).
Defined.

(** *** The counter and the frames in flight *)

Lemma in_flight_nonneg w : (0 ≤ in_flight w)%Z.
Proof. unfold in_flight. destruct (posting w); lia. Qed.

Lemma MaybeReportFrameRateConstraintUmas_keeps w :
  let w' := MaybeReportFrameRateConstraintUmas w in
  alive w' = alive w ∧ queue w' = queue w ∧ posting w' = posting w ∧
  callback_calls w' = callback_calls w ∧
  callback_ (self w') = callback_ (self w) ∧
  frames_scheduled_for_processing_ (self w') =
    frames_scheduled_for_processing_ (self w).
Proof.
  destruct w as [[cb sc zh [] n] al q po cc hi]; cbn; [done|].
  unfold MaybeReportFrameRateConstraintUmas. cbn. by destruct zh.
Qed.

(** A step keeps the counter equal to the number of frames in flight, and
    every count handed to the callback at least 1, as long as the frames
    in flight fit an [int]. *)
Lemma exec_keeps_count a w w' :
  exec a w = Some w' → (in_flight w' ≤ INT_MAX)%Z →
  Forall (λ n, (1 ≤ n)%Z) (delivered_counts (callback_calls w)) ∧
  (alive w = true →
   frames_scheduled_for_processing_ (self w) = in_flight w) →
  Forall (λ n, (1 ≤ n)%Z) (delivered_counts (callback_calls w')) ∧
  (alive w' = true →
   frames_scheduled_for_processing_ (self w') = in_flight w').
Proof.
  intros Hexec Hbound [Hcounts Hinv].
  assert (Hrun : RunNextTask w = Some w' →
    Forall (λ n, (1 ≤ n)%Z) (delivered_counts (callback_calls w')) ∧
    (alive w' = true →
     frames_scheduled_for_processing_ (self w') = in_flight w')).
  { clear Hexec. unfold RunNextTask.
    destruct w as [[cb sc zh hr n] al [|t q] po cc hi]; [done|].
    cbn in *. destruct al; cbn.
    - specialize (Hinv eq_refl). destruct t as [t f | c]; cbn.
      + destruct cb as [cb|]; [|done]. cbn. intros [= <-].
        destruct (MaybeReportFrameRateConstraintUmas_keeps
          (record_callback (Callback_OnFrame cb t n f)
             (on_self (set_frames_scheduled (wrap_int (n - 1)))
                (set_queue q
                   {| self := {| callback_ := Some cb;
                                 source_constraints_ := sc;
                                 zero_hertz_and_uma_reporting_enabled_ := zh;
                                 has_reported_screenshare_frame_rate_umas_
                                   := hr;
                                 frames_scheduled_for_processing_ := n |};
                      alive := true; queue := OnFrameTask t f :: q;
                      posting := po; callback_calls := cc;
                      histograms := hi |}))))
          as (Hal & Hq & Hpo & Hcc & _ & Hn).
        revert Hbound. unfold in_flight in *.
        rewrite Hal, Hq, Hpo, Hcc, Hn. cbn in *.
        intros Hbound. split.
        * unfold delivered_counts. rewrite omap_app.
          apply Forall_app. split; [done|]. cbn.
          constructor; [|constructor]. destruct po; lia.
        * intros _. rewrite wrap_int_id.
          -- destruct po; lia.
          -- unfold is_int, INT_MIN, INT_MAX in *. destruct po; lia.
      + intros [= <-]. cbn. done.
    - intros [= <-]. cbn. done. }
  destruct a; cbn in Hexec; try (by apply Hrun);
    destruct (alive w) eqn:Hal; cbn in Hexec; try done;
    specialize (Hinv eq_refl).
  - injection Hexec as <-. cbn. by rewrite Hal.
  - injection Hexec as <-.
    destruct w as [[cb sc zh hr n] al q po cc hi]; cbn in *.
    unfold SetZeroHertzModeEnabled. cbn. by destruct (enabled && negb zh).
  - destruct (posting w) eqn:Hpo; [done|]. injection Hexec as <-.
    revert Hbound. unfold in_flight in *. cbn. rewrite Hpo in Hinv.
    intros Hbound. split; [done|]. intros _. rewrite Hinv.
    rewrite wrap_int_id; [lia|]. unfold is_int, INT_MIN, INT_MAX in *. lia.
  - destruct (posting w) as [[t f]|] eqn:Hpo; [|done]. injection Hexec as <-.
    unfold OnFrame_PostTask, in_flight in *. rewrite Hpo in *. cbn.
    split; [done|]. intros _. rewrite Hinv, List.filter_app, length_app. cbn. lia.
  - unfold OnDiscardedFrame in Hexec.
    destruct (callback_ (self w)) as [cb|]; [|done]. injection Hexec as <-.
    cbn. split; [|done].
    unfold delivered_counts. rewrite omap_app. cbn. by rewrite app_nil_r.
  - injection Hexec as <-. unfold in_flight in *. cbn.
    split; [done|]. intros _. rewrite Hinv, List.filter_app, length_app. cbn. lia.
  - destruct (posting w); [done|]. injection Hexec as <-. cbn. done.
Qed.

(** C9: in every run that starts from a new adapter and keeps the frames in
    flight within [int], every count the callback is handed with a frame
    is at least 1, and the counter of the living adapter is the number of
    frames in flight.  The task of a frame, when it runs on a living
    adapter with a callback, hands over the counter as it finds it, which
    is then at least 1. *)
Theorem C9_delivered_count_at_least_one w :
  reachable w →
  Forall (λ n, (1 ≤ n)%Z) (delivered_counts (callback_calls w)) ∧
  (alive w = true →
   frames_scheduled_for_processing_ (self w) = in_flight w) ∧
  (∀ t f q cb,
     alive w = true → queue w = OnFrameTask t f :: q →
     callback_ (self w) = Some cb →
     ∃ w', RunNextTask w = Some w' ∧
           callback_calls w' = callback_calls w ++
             [Callback_OnFrame cb t
                (frames_scheduled_for_processing_ (self w)) f] ∧
           (1 ≤ frames_scheduled_for_processing_ (self w))%Z).
Proof.
  intros Hreach.
  assert (Hinv : Forall (λ n, (1 ≤ n)%Z) (delivered_counts (callback_calls w))
    ∧ (alive w = true →
       frames_scheduled_for_processing_ (self w) = in_flight w)).
  { induction Hreach as [|a w w' _ IH Hexec Hbound].
    - split; [constructor | done].
    - by apply (exec_keeps_count a w w'). }
  destruct Hinv as [Hcounts Hinv]. split; [done|]. split; [done|].
  intros t f q cb Hal Hq Hcb. specialize (Hinv Hal).
  unfold RunNextTask. rewrite Hq. cbn. rewrite Hal. cbn.
  unfold OnFrameOnMainQueue. cbn. rewrite Hcb. cbn.
  eexists. split; [done|].
  destruct (MaybeReportFrameRateConstraintUmas_keeps
    (record_callback
       (Callback_OnFrame cb t (frames_scheduled_for_processing_ (self w)) f)
       (on_self
          (set_frames_scheduled
             (wrap_int (frames_scheduled_for_processing_ (self w) - 1)))
          (set_queue q w)))) as (_ & _ & _ & Hcc & _).
  rewrite Hcc. cbn. split; [done|].
  rewrite Hinv. unfold in_flight. rewrite Hq. cbn. destruct (posting w); lia.
Qed.

(** One run of C9: a frame is counted, posted and delivered. *)
Lemma C9_witness :
  ∃ w, run [DoInitialize 5; DoOnFrame_fetch_add 100%Z 1%N;
            DoOnFrame_PostTask; DoRunNextTask]
         FrameCadenceAdapterImpl_new = Some w ∧
       delivered_counts (callback_calls w) = [1%Z] ∧
       Forall (λ n, (1 ≤ n)%Z) (delivered_counts (callback_calls w)).
Proof.
  pose proof reachable_new as R0.
  pose proof (reachable_step (DoInitialize 5) _ _ R0 eq_refl
                ltac:(vm_compute; discriminate)) as R1.
  pose proof (reachable_step (DoOnFrame_fetch_add 100%Z 1%N) _ _ R1 eq_refl
                ltac:(vm_compute; discriminate)) as R2.
  pose proof (reachable_step DoOnFrame_PostTask _ _ R2 eq_refl
                ltac:(vm_compute; discriminate)) as R3.
  pose proof (reachable_step DoRunNextTask _ _ R3 eq_refl
                ltac:(vm_compute; discriminate)) as R4.
  eexists. split; [reflexivity|]. split; [reflexivity|].
  exact (proj1 (C9_delivered_count_at_least_one _ R4)).
Defined.

(** *** The one-shot report *)

(** C4, as the code has it: when the check runs with zero-hertz mode
    disabled it records no sample and calls nothing, and it does set the
    mark of having reported, which it does before it looks at the mode;
    nothing else changes.  The mark is cleared when the mode is next
    enabled, so the check that follows records the samples. *)
Theorem C4_report_skipped_when_disabled w :
  zero_hertz_and_uma_reporting_enabled_ (self w) = false →
  let w' := MaybeReportFrameRateConstraintUmas w in
  histograms w' = histograms w ∧
  callback_calls w' = callback_calls w ∧
  has_reported_screenshare_frame_rate_umas_ (self w') = true ∧
  w' = on_self (set_has_reported true) w ∧
  histograms (MaybeReportFrameRateConstraintUmas
                (SetZeroHertzModeEnabled true w')) =
    histograms w ++ frame_rate_constraint_umas (source_constraints_ (self w)).
Proof.
  intros Hzh. destruct w as [[cb sc zh hr n] al q po cc hi]. cbn in *. subst.
  unfold MaybeReportFrameRateConstraintUmas, SetZeroHertzModeEnabled.
  by destruct hr.
Qed.

(** One run of C4: the check on a new adapter, whose mode is disabled. *)
Lemma C4_witness :
  let w' := MaybeReportFrameRateConstraintUmas FrameCadenceAdapterImpl_new in
  histograms w' = [] ∧ callback_calls w' = [] ∧
  has_reported_screenshare_frame_rate_umas_ (self w') = true ∧
  w' = on_self (set_has_reported true) FrameCadenceAdapterImpl_new ∧
  histograms (MaybeReportFrameRateConstraintUmas
                (SetZeroHertzModeEnabled true w')) =
    frame_rate_constraint_umas None.
Proof.
  exact (C4_report_skipped_when_disabled FrameCadenceAdapterImpl_new eq_refl).
Defined.

(** C4, as the claim has it, fails: on a new adapter, whose mode is
    disabled and which has not reported, the check leaves the mark set. *)
Lemma C4_counterexample :
  let w := FrameCadenceAdapterImpl_new in
  zero_hertz_and_uma_reporting_enabled_ (self w) = false ∧
  has_reported_screenshare_frame_rate_umas_ (self w) = false ∧
  has_reported_screenshare_frame_rate_umas_
    (self (MaybeReportFrameRateConstraintUmas w)) = true ∧
  MaybeReportFrameRateConstraintUmas w ≠ w.
Proof. repeat split. discriminate. Qed.

Lemma MaybeReportFrameRateConstraintUmas_reports w :
  has_reported_screenshare_frame_rate_umas_ (self w) = false →
  zero_hertz_and_uma_reporting_enabled_ (self w) = true →
  histograms (MaybeReportFrameRateConstraintUmas w) =
    histograms w ++ frame_rate_constraint_umas (source_constraints_ (self w)).
Proof.
  destruct w as [[cb sc zh hr n] al q po cc hi]. cbn. intros -> ->.
  reflexivity.
Qed.

(** Membership in the list of samples, spelled out element by element. *)
Ltac in_samples :=
  unfold frame_rate_constraint_umas; cbn [app min_fps max_fps];
  rewrite ?elem_of_cons, ?elem_of_nil.

#[local] Set Warnings "-clear-no-such-hyp".

(** C1, as the code has it: the joint sample, of value
    [min_fps * 60 + max_fps - 1] and with the boundary 3659, is recorded
    whenever both [min_fps] and [max_fps] are present, whichever is the
    larger, and in no other case; the two samples under the keys
    [MinLessThanMax.Min] and [MinLessThanMax.Max] are the ones recorded
    only when [min_fps < max_fps].  For (10, 30) the joint sample is 629;
    for (30, 10) the samples [Min.Value] 30 and [Max.Value] 10 are
    recorded, and the joint sample 1809. *)
Theorem C1_joint_sample_when_both_present :
  (∀ w, has_reported_screenshare_frame_rate_umas_ (self w) = false →
     zero_hertz_and_uma_reporting_enabled_ (self w) = true →
     histograms (MaybeReportFrameRateConstraintUmas w) =
       histograms w ++
       frame_rate_constraint_umas (source_constraints_ (self w))) ∧
  frame_rate_constraint_umas
    (Some {| min_fps := Some 10%Z; max_fps := Some 30%Z |}) =
    [RTC_HISTOGRAM_BOOLEAN
       "WebRTC.Screenshare.FrameRateConstraints.Exists" true;
     RTC_HISTOGRAM_BOOLEAN
       "WebRTC.Screenshare.FrameRateConstraints.Min.Exists" true;
     RTC_HISTOGRAM_COUNTS_100
       "WebRTC.Screenshare.FrameRateConstraints.Min.Value" 10;
     RTC_HISTOGRAM_BOOLEAN
       "WebRTC.Screenshare.FrameRateConstraints.Max.Exists" true;
     RTC_HISTOGRAM_COUNTS_100
       "WebRTC.Screenshare.FrameRateConstraints.Max.Value" 30;
     RTC_HISTOGRAM_COUNTS_100
       "WebRTC.Screenshare.FrameRateConstraints.MinLessThanMax.Min" 10;
     RTC_HISTOGRAM_COUNTS_100
       "WebRTC.Screenshare.FrameRateConstraints.MinLessThanMax.Max" 30;
     RTC_HISTOGRAM_ENUMERATION_SPARSE
       "WebRTC.Screenshare.FrameRateConstraints.60MinPlusMaxMinusOne"
       629 3659] ∧
  frame_rate_constraint_umas
    (Some {| min_fps := Some 30%Z; max_fps := Some 10%Z |}) =
    [RTC_HISTOGRAM_BOOLEAN
       "WebRTC.Screenshare.FrameRateConstraints.Exists" true;
     RTC_HISTOGRAM_BOOLEAN
       "WebRTC.Screenshare.FrameRateConstraints.Min.Exists" true;
     RTC_HISTOGRAM_COUNTS_100
       "WebRTC.Screenshare.FrameRateConstraints.Min.Value" 30;
     RTC_HISTOGRAM_BOOLEAN
       "WebRTC.Screenshare.FrameRateConstraints.Max.Exists" true;
     RTC_HISTOGRAM_COUNTS_100
       "WebRTC.Screenshare.FrameRateConstraints.Max.Value" 10;
     RTC_HISTOGRAM_ENUMERATION_SPARSE
       "WebRTC.Screenshare.FrameRateConstraints.60MinPlusMaxMinusOne"
       1809 3659] ∧
  (∀ sc name sample boundary,
     RTC_HISTOGRAM_ENUMERATION_SPARSE name sample boundary
       ∈ frame_rate_constraint_umas sc ↔
     name = "WebRTC.Screenshare.FrameRateConstraints.60MinPlusMaxMinusOne" ∧
     boundary = 3659%Z ∧
     ∃ c mn mx, sc = Some c ∧ min_fps c = Some mn ∧ max_fps c = Some mx ∧
                sample = (mn * 60 + mx - 1)%Z) ∧
  (∀ sc sample,
     RTC_HISTOGRAM_COUNTS_100
       "WebRTC.Screenshare.FrameRateConstraints.MinLessThanMax.Min" sample
       ∈ frame_rate_constraint_umas sc ↔
     ∃ c mx, sc = Some c ∧ min_fps c = Some sample ∧ max_fps c = Some mx ∧
             (sample < mx)%Z) ∧
  (∀ sc sample,
     RTC_HISTOGRAM_COUNTS_100
       "WebRTC.Screenshare.FrameRateConstraints.MinLessThanMax.Max" sample
       ∈ frame_rate_constraint_umas sc ↔
     ∃ c mn, sc = Some c ∧ min_fps c = Some mn ∧ max_fps c = Some sample ∧
             (mn < sample)%Z).
Proof.
  split; [apply MaybeReportFrameRateConstraintUmas_reports|].
  split; [reflexivity|]. split; [reflexivity|].
  split; [|split].
  - intros [[[mn|] [mx|]]|] name sample boundary; in_samples;
      try destruct (Z.ltb_spec mn mx); in_samples; naive_solver.
  - intros [[[mn|] [mx|]]|] sample; in_samples;
      try destruct (Z.ltb_spec mn mx); in_samples; naive_solver lia.
  - intros [[[mn|] [mx|]]|] sample; in_samples;
      try destruct (Z.ltb_spec mn mx); in_samples; naive_solver lia.
Qed.

(** One run of C1: the check on an adapter in zero-hertz mode that has the
    constraints (10, 30) and has not reported. *)
Lemma C1_witness :
  let w := on_self (set_source_constraints
                      (Some {| min_fps := Some 10%Z; max_fps := Some 30%Z |}))
             (SetZeroHertzModeEnabled true FrameCadenceAdapterImpl_new) in
  histograms (MaybeReportFrameRateConstraintUmas w) =
    histograms w ++ frame_rate_constraint_umas (source_constraints_ (self w)).
Proof.
  exact (proj1 C1_joint_sample_when_both_present
           (on_self (set_source_constraints
                       (Some {| min_fps := Some 10%Z; max_fps := Some 30%Z |}))
              (SetZeroHertzModeEnabled true FrameCadenceAdapterImpl_new))
           eq_refl eq_refl).
Defined.

(** C1, as the claim has it, fails: with the inverted constraints (30, 10),
    set through [OnConstraintsChanged] on an adapter in zero-hertz mode,
    the first frame delivered records the joint sample, of value 1809,
    although 30 is not less than 10. *)
Lemma C1_counterexample :
  ∃ w, run [DoInitialize 5; DoSetZeroHertzModeEnabled true;
            DoOnConstraintsChanged
              {| min_fps := Some 30%Z; max_fps := Some 10%Z |};
            DoRunNextTask;
            DoOnFrame_fetch_add 100%Z 1%N; DoOnFrame_PostTask; DoRunNextTask]
         FrameCadenceAdapterImpl_new = Some w ∧
       histograms w =
         [RTC_HISTOGRAM_BOOLEAN
            "WebRTC.Screenshare.FrameRateConstraints.Exists" true;
          RTC_HISTOGRAM_BOOLEAN
            "WebRTC.Screenshare.FrameRateConstraints.Min.Exists" true;
          RTC_HISTOGRAM_COUNTS_100
            "WebRTC.Screenshare.FrameRateConstraints.Min.Value" 30;
          RTC_HISTOGRAM_BOOLEAN
            "WebRTC.Screenshare.FrameRateConstraints.Max.Exists" true;
          RTC_HISTOGRAM_COUNTS_100
            "WebRTC.Screenshare.FrameRateConstraints.Max.Value" 10;
          RTC_HISTOGRAM_ENUMERATION_SPARSE
            "WebRTC.Screenshare.FrameRateConstraints.60MinPlusMaxMinusOne"
            1809 3659] ∧
       ¬ (30 < 10)%Z.
Proof. eexists. split; [reflexivity|]. split; [reflexivity | lia]. Qed.

(** *** An adapter that is gone *)





(** *** Reports and sessions, in any run *)

Ltac no_report :=
  exists []; cbn; rewrite app_nil_r; split; [done|];
  split; [repeat case_match; cbn; lia | done].

(** What a step adds to the samples is nothing or one report, and a report
    uses up the session's due. *)
Lemma exec_report a w w1 :
  exec a w = Some w1 →
  ∃ r, histograms w1 =
         histograms w ++ concat (frame_rate_constraint_umas <$> r) ∧
       length r + report_due w1 ≤
         report_due w +
         session_starts (zero_hertz_and_uma_reporting_enabled_ (self w)) [a] ∧
       zero_hertz_and_uma_reporting_enabled_ (self w1) =
         (if a is DoSetZeroHertzModeEnabled b then b
          else zero_hertz_and_uma_reporting_enabled_ (self w)).
Proof.
  destruct w as [[cb sc zh hr n] al q po cc hi].
  unfold report_due.
  destruct a as [cb' | b | now f | | | c | |]; cbn;
    try (destruct al; [|done]; cbn).
  - intros [= <-]. no_report.
  - intros [= <-]. unfold SetZeroHertzModeEnabled.
    destruct b, zh; cbn; no_report.
  - destruct po; [done|]. intros [= <-]. no_report.
  - destruct po as [[t f]|]; [|done]. intros [= <-]. no_report.
  - unfold OnDiscardedFrame. cbn. destruct cb; [|done]. cbn.
    intros [= <-]. no_report.
  - intros [= <-]. no_report.
  - unfold RunNextTask. cbn. destruct q as [|t q]; [done|]. cbn.
    destruct al; cbn; [|intros [= <-]; no_report].
    destruct t as [t f | c]; cbn; [|intros [= <-]; no_report].
    destruct cb as [cb|]; [|done]. cbn. intros [= <-].
    unfold MaybeReportFrameRateConstraintUmas. cbn.
    destruct hr; cbn; [no_report|].
    destruct zh; cbn; [|no_report].
    exists [sc]. cbn. rewrite app_nil_r. split; [done|]. split; [lia|done].
  - destruct po; [done|]. intros [= <-]. no_report.
Qed.

Lemma session_starts_cons enabled a l :
  session_starts enabled (a :: l) =
    session_starts enabled [a] +
    session_starts (if a is DoSetZeroHertzModeEnabled b then b else enabled) l.
Proof. destruct a; cbn; lia. Qed.

(** X17: in every run, whatever the two threads do and in whatever order,
    the samples recorded are whole reports, one after the other, and there
    are at most as many as the run starts sessions, and one more if the
    run begins in a session that has not reported. *)
Theorem X17_at_most_one_report_per_session l : ∀ w w',
  run l w = Some w' →
  ∃ reports,
    histograms w' =
      histograms w ++ concat (frame_rate_constraint_umas <$> reports) ∧
    length reports ≤
      report_due w +
      session_starts (zero_hertz_and_uma_reporting_enabled_ (self w)) l.
Proof.
  induction l as [|a l IH]; intros w w'.
  - cbn. intros [= <-]. exists []. cbn. rewrite app_nil_r. split; [done|lia].
  - intros Hrun. cbn [run] in Hrun.
    destruct (exec a w) as [w1|] eqn:Hexec; [|done].
    change (run l w1 = Some w') in Hrun.
    destruct (exec_report _ _ _ Hexec) as (r & Hhi & Hlen & Hzh).
    destruct (IH _ _ Hrun) as (rs & Hhi' & Hlen').
    exists (r ++ rs). rewrite Hhi', Hhi, <- app_assoc, fmap_app, concat_app.
    split; [done|]. rewrite length_app, session_starts_cons.
    rewrite Hzh in Hlen'. lia.
Qed.

(** One run of X17: a session of two frames. *)
Lemma X17_witness :
  ∃ w' reports,
    run [DoInitialize 5; DoSetZeroHertzModeEnabled true;
         DoOnFrame_fetch_add 100%Z 1%N; DoOnFrame_PostTask;
         DoOnFrame_fetch_add 200%Z 2%N; DoRunNextTask;
         DoOnFrame_PostTask; DoRunNextTask]
      FrameCadenceAdapterImpl_new = Some w' ∧
    histograms w' = concat (frame_rate_constraint_umas <$> reports) ∧
    length reports ≤ 1.
Proof.
  assert (∃ w', run [DoInitialize 5; DoSetZeroHertzModeEnabled true;
                     DoOnFrame_fetch_add 100%Z 1%N; DoOnFrame_PostTask;
                     DoOnFrame_fetch_add 200%Z 2%N; DoRunNextTask;
                     DoOnFrame_PostTask; DoRunNextTask]
                  FrameCadenceAdapterImpl_new = Some w') as [w' Hrun]
    by (eexists; vm_compute; reflexivity).
  destruct (X17_at_most_one_report_per_session _ _ _ Hrun)
    as (reports & H1 & H2).
  exists w', reports. split; [exact Hrun|]. split; [exact H1 | exact H2].
Defined.

(** *** Constraints *)

#[local] Arguments OnConstraintsChangeds : simpl never.

Lemma OnConstraintsChangeds_run l : ∀ w,
  OnConstraintsChangeds l w =
    set_queue (queue w ++ (OnConstraintsChangedTask <$> l)) w.
Proof.
  induction l as [|c l IH]; intros w.
  - destruct w. unfold OnConstraintsChangeds. cbn. setters.
    by rewrite app_nil_r.
  - change (OnConstraintsChangeds (c :: l) w)
      with (OnConstraintsChangeds l (OnConstraintsChanged c w)).
    rewrite IH. unfold OnConstraintsChanged. setters.
    by rewrite <- app_assoc.
Qed.

Lemma RunTasks_constraints l : ∀ a q po cc hi,
  RunTasks (length l)
    {| self := a; alive := true;
       queue := (OnConstraintsChangedTask <$> l) ++ q; posting := po;
       callback_calls := cc; histograms := hi |} =
  Some {| self := if last l is Some c
                  then set_source_constraints (Some c) a else a;
          alive := true; queue := q; posting := po;
          callback_calls := cc; histograms := hi |}.
Proof.
  induction l as [|c l IH]; intros a q po cc hi; [done|].
  cbn [length]. rewrite RunTasks_S. unfold RunNextTask. cbn. setters.
  rewrite IH. destruct l as [|c' l]; [reflexivity|].
  rewrite last_cons_cons.
  destruct (last (c' :: l)) eqn:Hl; [reflexivity|]. by apply last_None in Hl.
Qed.

(** X18: a change of constraints takes effect when its task runs, not when
    [OnConstraintsChanged] is called, and the last one wins: after the
    calls the stored constraints are what they were; after the queue has
    run their tasks they are those of the last call, and nothing else has
    changed. *)
Theorem X18_last_constraints_win w l c :
  alive w = true → queue w = [] → last l = Some c →
  source_constraints_ (self (OnConstraintsChangeds l w)) =
    source_constraints_ (self w) ∧
  ∃ w', RunTasks (length l) (OnConstraintsChangeds l w) = Some w' ∧
        source_constraints_ (self w') = Some c ∧
        w' = on_self (set_source_constraints (Some c)) w.
Proof.
  intros Hal Hq Hlast. rewrite OnConstraintsChangeds_run.
  split; [done|].
  destruct w as [a al q po cc hi]. cbn in *. subst. setters. cbn [app].
  rewrite <- (app_nil_r (OnConstraintsChangedTask <$> l)).
  rewrite RunTasks_constraints, Hlast. eexists. split; [done|]. by cbn.
Qed.

(** One run of X18: two changes of constraints on a new adapter. *)
Lemma X18_witness :
  ∃ w', RunTasks 2
          (OnConstraintsChangeds
             [{| min_fps := Some 5%Z; max_fps := None |};
              {| min_fps := None; max_fps := Some 30%Z |}]
             FrameCadenceAdapterImpl_new) = Some w' ∧
        source_constraints_ (self w') =
          Some {| min_fps := None; max_fps := Some 30%Z |} ∧
        w' = on_self (set_source_constraints
                        (Some {| min_fps := None; max_fps := Some 30%Z |}))
               FrameCadenceAdapterImpl_new.
Proof.
  exact (proj2 (X18_last_constraints_win FrameCadenceAdapterImpl_new
                  [{| min_fps := Some 5%Z; max_fps := None |};
                   {| min_fps := None; max_fps := Some 30%Z |}]
                  {| min_fps := None; max_fps := Some 30%Z |}
                  eq_refl eq_refl eq_refl)).
Defined.

(** X19: the report of a session uses the constraints in force when the
    session's first frame is delivered.  Constraints changed before that
    frame is posted are the ones reported; constraints changed after it is
    posted are stored, and that session reports the earlier ones. *)
Theorem X19_report_uses_constraints_at_first_frame w cb c t f :
  alive w = true → callback_ (self w) = Some cb →
  queue w = [] → posting w = None →
  zero_hertz_and_uma_reporting_enabled_ (self w) = true →
  has_reported_screenshare_frame_rate_umas_ (self w) = false →
  (∃ w', RunTasks 2 (OnFrame t f (OnConstraintsChanged c w)) = Some w' ∧
         histograms w' = histograms w ++ frame_rate_constraint_umas (Some c))
  ∧
  (∃ w', RunTasks 2 (OnConstraintsChanged c (OnFrame t f w)) = Some w' ∧
         histograms w' =
           histograms w ++
           frame_rate_constraint_umas (source_constraints_ (self w)) ∧
         source_constraints_ (self w') = Some c).
Proof.
  intros Hal Hcb Hq Hpo Hzh Hhr.
  destruct w as [[cb' sc zh hr n] al q po cc hi]. cbn in *. subst.
  split; eexists; (split; [reflexivity|]); by cbn.
Qed.

(** One run of X19: constraints arrive after the first frame is posted. *)
Lemma X19_witness :
  ∃ w', RunTasks 2
          (OnConstraintsChanged {| min_fps := Some 10%Z; max_fps := Some 30%Z |}
             (OnFrame 100%Z 1%N
                (SetZeroHertzModeEnabled true
                   (Initialize 5 FrameCadenceAdapterImpl_new)))) = Some w' ∧
        histograms w' = frame_rate_constraint_umas None ∧
        source_constraints_ (self w') =
          Some {| min_fps := Some 10%Z; max_fps := Some 30%Z |}.
Proof.
  exact (proj2 (X19_report_uses_constraints_at_first_frame
                  (SetZeroHertzModeEnabled true
                     (Initialize 5 FrameCadenceAdapterImpl_new))
                  5%N {| min_fps := Some 10%Z; max_fps := Some 30%Z |}
                  100%Z 1%N eq_refl eq_refl eq_refl eq_refl eq_refl eq_refl)).
Defined.

(** X20: a frame goes to the callback that is installed when its task
    runs, whatever was installed when [OnFrame] was called; and the task
    of a frame cannot run while no callback is installed. *)
Theorem X20_frame_goes_to_current_callback w cb t f :
  alive w = true → queue w = [] → posting w = None →
  (∃ w', RunNextTask (Initialize cb (OnFrame t f w)) = Some w' ∧
         callback_calls w' = callback_calls w ++
           [Callback_OnFrame cb t
              (wrap_int (frames_scheduled_for_processing_ (self w) + 1)) f])
  ∧
  (callback_ (self w) = None → RunNextTask (OnFrame t f w) = None).
Proof.
  intros Hal Hq Hpo.
  destruct w as [[cb' sc zh hr n] al q po cc hi]. cbn in *. subst.
  split.
  - eexists. split; [reflexivity|].
    unfold MaybeReportFrameRateConstraintUmas. cbn. by destruct hr, zh.
  - by intros ->.
Qed.

(** One run of X20: a frame posted before any callback is installed. *)
Lemma X20_witness :
  ∃ w', RunNextTask
          (Initialize 5 (OnFrame 100%Z 1%N FrameCadenceAdapterImpl_new))
          = Some w' ∧
        callback_calls w' = [Callback_OnFrame 5%N 100%Z 1%Z 1%N].
Proof.
  exact (proj1 (X20_frame_goes_to_current_callback
                  FrameCadenceAdapterImpl_new 5%N 100%Z 1%N
                  eq_refl eq_refl eq_refl)).
Defined.

(** *** What the samples tell *)

(** X21: for frame rates up to 60, with a maximum of at least 1, the joint
    sample lies within its boundary [kMaxBucketCount] and tells the two
    rates apart: the minimum is the sample divided by 60 and the maximum
    is the remainder plus 1. *)
Theorem X21_joint_sample_decodes c mn mx name sample boundary :
  min_fps c = Some mn → max_fps c = Some mx →
  (0 ≤ mn ≤ 60)%Z → (1 ≤ mx ≤ 60)%Z →
  RTC_HISTOGRAM_ENUMERATION_SPARSE name sample boundary
    ∈ frame_rate_constraint_umas (Some c) →
  boundary = kMaxBucketCount ∧ (0 ≤ sample ≤ boundary)%Z ∧
  (sample `div` 60 = mn)%Z ∧ (sample `mod` 60 + 1 = mx)%Z.
Proof.
  intros Hmn Hmx Hmn_range Hmx_range.
  destruct c as [mn' mx']. cbn in Hmn, Hmx. subst. in_samples.
  destruct (Z.ltb_spec mn mx); in_samples;
    (intros H'; repeat destruct H' as [H'|H']; try discriminate H';
     try done; injection H' as -> -> ->);
    (split; [done|]; unfold kMaxBucketCount; split; [lia|];
     split; [symmetry; apply (Z.div_unique _ 60 mn (mx - 1)); lia
            | rewrite <- (Z.mod_unique _ 60 mn (mx - 1)); lia]).
Qed.

(** One use of X21: the constraints (10, 30), of joint sample 629. *)
Lemma X21_witness :
  3659%Z = kMaxBucketCount ∧ (0 ≤ 629 ≤ 3659)%Z ∧
  (629 `div` 60 = 10)%Z ∧ (629 `mod` 60 + 1 = 30)%Z.
Proof.
  apply (X21_joint_sample_decodes
           {| min_fps := Some 10%Z; max_fps := Some 30%Z |} 10%Z 30%Z
           "WebRTC.Screenshare.FrameRateConstraints.60MinPlusMaxMinusOne"
           629%Z 3659%Z eq_refl eq_refl); [lia | lia |].
  unfold frame_rate_constraint_umas. cbn. rewrite !elem_of_cons. tauto.
Defined.

(** X22: the plain samples follow the constraints field by field.
    [Exists] is recorded in every report and tells whether constraints
    are stored; [Min.Exists] and [Max.Exists] are recorded exactly when
    they are, and tell whether the field is present; [Min.Value] and
    [Max.Value] are recorded exactly for a field that is present, with its
    value; [MinUnset.Max] is recorded exactly when [max_fps] is present
    and [min_fps] is not. *)
Theorem X22_plain_samples_follow_fields sc :
  (∀ b, RTC_HISTOGRAM_BOOLEAN
          "WebRTC.Screenshare.FrameRateConstraints.Exists" b
          ∈ frame_rate_constraint_umas sc ↔
        b = (if sc is Some _ then true else false)) ∧
  (∀ b, RTC_HISTOGRAM_BOOLEAN
          "WebRTC.Screenshare.FrameRateConstraints.Min.Exists" b
          ∈ frame_rate_constraint_umas sc ↔
        ∃ c, sc = Some c ∧ b = (if min_fps c is Some _ then true else false)) ∧
  (∀ b, RTC_HISTOGRAM_BOOLEAN
          "WebRTC.Screenshare.FrameRateConstraints.Max.Exists" b
          ∈ frame_rate_constraint_umas sc ↔
        ∃ c, sc = Some c ∧ b = (if max_fps c is Some _ then true else false)) ∧
  (∀ v, RTC_HISTOGRAM_COUNTS_100
          "WebRTC.Screenshare.FrameRateConstraints.Min.Value" v
          ∈ frame_rate_constraint_umas sc ↔
        ∃ c, sc = Some c ∧ min_fps c = Some v) ∧
  (∀ v, RTC_HISTOGRAM_COUNTS_100
          "WebRTC.Screenshare.FrameRateConstraints.Max.Value" v
          ∈ frame_rate_constraint_umas sc ↔
        ∃ c, sc = Some c ∧ max_fps c = Some v) ∧
  (∀ v, RTC_HISTOGRAM_COUNTS_100
          "WebRTC.Screenshare.FrameRateConstraints.MinUnset.Max" v
          ∈ frame_rate_constraint_umas sc ↔
        ∃ c, sc = Some c ∧ min_fps c = None ∧ max_fps c = Some v).
Proof.
  destruct sc as [[[mn|] [mx|]]|];
    unfold frame_rate_constraint_umas; cbn [app min_fps max_fps];
    try destruct (Z.ltb_spec mn mx); cbn [app];
    split_and!; intros ?; rewrite ?elem_of_cons, ?elem_of_nil; naive_solver.
Qed.

End FrameCadenceAdapterFacts.
